(** * midjourneyapi: the HTTP client of the image-generation service

    A shallow embedding of [midjourneyapi.go].  The client turns a typed
    call into one HTTP request (a JSON body, or a multipart form for
    [Describe]), sends it with the credential in the [Authorization]
    header and decodes the JSON answer.

    The source file carries two revisions of the package one after the
    other.  They agree on everything but [Describe] and
    [DescribeResponse]; the shared code is embedded once, the two
    [Describe] variants live in the modules [Rev1] (first revision) and
    [Rev2] (second revision, which supersedes the first).

    The Go standard library is modelled at the level the client observes:
    a JSON document is a tree, a response body is the sequence of JSON
    values the scanner finds in it, a multipart stream is its list of
    parts, and the HTTP round trip is a function from requests to
    outcomes together with a log of the requests sent. *)

From Stdlib Require Import ZArith String Ascii List Bool DecimalString DecimalPos DecimalZ Lia.
From stdpp Require Import base option list gmap strings.

Local Open Scope string_scope.
Local Open Scope Z_scope.

#[local] Set Warnings "-register-all".

(** ** Errors and fallible results *)

(** The error values the client can return.  [errorString] stands for
    any error of the transport or of a reader ([errors.New]). *)
Inductive error : Type :=
| EOF
| ErrUnexpectedEOF
| SyntaxError (msg : string)
| UnmarshalTypeError (Value : string) (Field : string)
| UnsupportedTypeError (Type_ : string)
| errorString (s : string).

#[global] Instance error_eq_dec : EqDecision error.
Proof. solve_decision. Defined.

(** A Go pair [(T, error)] in which exactly one side is meaningful. *)
Inductive result (A : Type) : Type :=
| Ok (a : A)
| Err (e : error).
Arguments Ok {A} a.
Arguments Err {A} e.

(** Zero values ([var r T]). *)
Class Zero (T : Type) := zero : T.
#[global] Instance string_zero : Zero string := "".
#[global] Instance int_zero : Zero Z := 0.

(** ** JSON documents *)

Inductive json : Type :=
| JNull
| JBool (b : bool)
| JNumber (lit : string)
| JString (s : string)
| JArray (elems : list json)
| JObject (members : list (string * json)).

(** [strconv.FormatInt n 10]. *)
Definition FormatInt (n : Z) : string := NilZero.string_of_int (Z.to_int n).

(** *** Encoding ([encoding/json], [Encoder.Encode]) *)

(** The field kinds that occur in the request structs. *)
Inductive GoValue : Type :=
| VString (s : string)
| VInt (n : Z).

(** One struct field as reflection sees it: the key of its [json] tag,
    whether the tag carries [omitempty], and the value. *)
Record StructField : Type := mkField {
  Key : string;
  OmitEmpty : bool;
  Val : GoValue
}.

(** [isEmptyValue]: a string of length 0, an integer equal to 0. *)
Definition isEmptyValue (v : GoValue) : bool :=
  match v with
  | VString s => (String.length s =? 0)%nat
  | VInt n => n =? 0
  end.

Definition encodeValue (v : GoValue) : json :=
  match v with
  | VString s => JString s
  | VInt n => JNumber (FormatInt n)
  end.

(** The struct encoder: fields in declaration order, a field with
    [omitempty] is left out when its value is empty. *)
Fixpoint encodeFields (fs : list StructField) : list (string * json) :=
  match fs with
  | [] => []
  | f :: rest =>
      if OmitEmpty f && isEmptyValue (Val f)
      then encodeFields rest
      else (Key f, encodeValue (Val f)) :: encodeFields rest
  end.

Definition encodeStruct (fs : list StructField) : result json :=
  Ok (JObject (encodeFields fs)).

(** What [json.NewEncoder(&body).Encode(request)] does with a request of
    type [T] passed as [interface{}]. *)
Class Marshaler (T : Type) := Encode : T -> result json.

(** A Go channel: a value [encoding/json] refuses to encode. *)
Inductive chan : Type := mkChan (name : string).

#[global] Instance chan_Marshaler : Marshaler chan :=
  fun _ => Err (UnsupportedTypeError "chan").

(** *** Decoding ([encoding/json], [Decoder.Decode] and [Unmarshal]) *)

Definition upperByte (c : ascii) : ascii :=
  let n := nat_of_ascii c in
  if ((97 <=? n) && (n <=? 122))%nat then ascii_of_nat (n - 32) else c.

(** [foldName]: the case folding under which a JSON key matches a field
    name.  ASCII letters are upper-cased; the only other runes folded
    onto ASCII are U+017F (long s, bytes C5 BF) onto [S] and U+212A
    (Kelvin sign, bytes E2 84 AA) onto [K]. *)
Fixpoint foldName (s : string) : string :=
  match s with
  | EmptyString => EmptyString
  | String c rest =>
      match rest with
      | String d rest1 =>
          if ((nat_of_ascii c =? 197) && (nat_of_ascii d =? 191))%nat
          then String "S" (foldName rest1)
          else
            match rest1 with
            | String e rest2 =>
                if ((nat_of_ascii c =? 226) && (nat_of_ascii d =? 132)
                    && (nat_of_ascii e =? 170))%nat
                then String "K" (foldName rest2)
                else String (upperByte c) (foldName rest)
            | EmptyString => String (upperByte c) (foldName rest)
            end
      | EmptyString => String (upperByte c) EmptyString
      end
  end.

(** A field of a response struct: its JSON name and what storing a JSON
    value into it does (the new struct, and a type error if the value
    does not fit). *)
Record FieldSpec (T : Type) : Type := mkFieldSpec {
  fieldName : string;
  store : json -> T -> T * option error
}.
Arguments mkFieldSpec {T} fieldName store.
Arguments fieldName {T} f.
Arguments store {T} f v t.

(** The name of the JSON kind in an [UnmarshalTypeError]. *)
Definition kindName (v : json) : string :=
  match v with
  | JNull => "null"
  | JBool _ => "bool"
  | JNumber _ => "number"
  | JString _ => "string"
  | JArray _ => "array"
  | JObject _ => "object"
  end.

(** Storing into a [string] field: a JSON string is stored, [null]
    leaves the field alone, anything else is a type error and leaves the
    field alone. *)
Definition storeString {T : Type} (name : string) (set : string -> T -> T)
    (v : json) (t : T) : T * option error :=
  match v with
  | JString s => (set s t, None)
  | JNull => (t, None)
  | _ => (t, Some (UnmarshalTypeError (kindName v) name))
  end.

(** A response struct that [encoding/json] can fill. *)
Class Unmarshaler (T : Type) := mkUnmarshaler {
  typeName : string;
  fieldsOf : list (FieldSpec T)
}.
Arguments typeName T {_}.
Arguments fieldsOf T {_}.

(** The field a key addresses: an exact match is preferred, otherwise a
    match under [foldName]. *)
Definition findField {T : Type} (fs : list (FieldSpec T)) (key : string)
    : option (FieldSpec T) :=
  match List.find (fun f => String.eqb (fieldName f) key) fs with
  | Some f => Some f
  | None =>
      List.find (fun f => String.eqb (foldName (fieldName f)) (foldName key)) fs
  end.

(** [d.saveError]: only the earliest error is kept. *)
Definition saveError (saved : option error) (e : option error) : option error :=
  match saved with
  | Some _ => saved
  | None => e
  end.

(** Decoding the members of a JSON object into a struct, in the order in
    which they appear.  Unknown keys are skipped; a type error is saved
    and decoding goes on with the next member. *)
Fixpoint decodeObject {T : Type} (fs : list (FieldSpec T))
    (members : list (string * json)) (t : T) (saved : option error)
    : T * option error :=
  match members with
  | [] => (t, saved)
  | (k, v) :: rest =>
      match findField fs k with
      | None => decodeObject fs rest t saved
      | Some f =>
          let '(t', e) := store f v t in
          decodeObject fs rest t' (saveError saved e)
      end
  end.

(** Unmarshalling one JSON value into a struct. *)
Definition unmarshal {T : Type} `{Unmarshaler T} (v : json) (t : T)
    : T * option error :=
  match v with
  | JNull => (t, None)
  | JObject members => decodeObject (fieldsOf T) members t None
  | _ => (t, Some (UnmarshalTypeError (kindName v) (typeName T)))
  end.

(** A response body as the JSON scanner meets it: the complete JSON
    values it holds, and how the stream ends after them. *)
Inductive BodyEnd : Type :=
| CleanEnd
| Malformed (msg : string)
| Truncated
| ReadFailure (e : error).

Record Body : Type := mkBody {
  Docs : list json;
  End_ : BodyEnd
}.

(** [json.NewDecoder(body).Decode(&v)]: the first value of the stream is
    decoded; what follows it is not looked at. *)
Definition Decode {T : Type} `{Unmarshaler T} (body : Body) (t : T)
    : T * option error :=
  match Docs body with
  | v :: _ => unmarshal v t
  | [] =>
      match End_ body with
      | CleanEnd => (t, Some EOF)
      | Malformed msg => (t, Some (SyntaxError msg))
      | Truncated => (t, Some ErrUnexpectedEOF)
      | ReadFailure e => (t, Some e)
      end
  end.

(** [io.ReadAll(body)]: the whole body, or the read error. *)
Definition ReadAll (body : Body) : result Body :=
  match End_ body with
  | ReadFailure e => Err e
  | _ => Ok body
  end.

(** [json.Unmarshal(data, &v)]: the data is checked first and must be
    exactly one JSON value. *)
Definition Unmarshal {T : Type} `{Unmarshaler T} (data : Body) (t : T)
    : T * option error :=
  match End_ data, Docs data with
  | CleanEnd, [v] => unmarshal v t
  | CleanEnd, [] => (t, Some (SyntaxError "unexpected end of JSON input"))
  | CleanEnd, _ :: _ :: _ =>
      (t, Some (SyntaxError "invalid character after top-level value"))
  | Malformed msg, _ => (t, Some (SyntaxError msg))
  | Truncated, _ => (t, Some (SyntaxError "unexpected end of JSON input"))
  | ReadFailure e, _ => (t, Some e)
  end.

(** Go's [float64], taken as given together with its zero and with
    [strconv.ParseFloat] on a JSON number literal (which fails on a
    literal out of range). *)
Class Float64 (F : Type) : Type := mkFloat64 {
  float64_zero : F;
  ParseFloat : string -> option F
}.

(** Storing into a [float64] field. *)
Definition storeFloat64 {T F : Type} `{Float64 F}
    (name : string) (set : F -> T -> T) (v : json) (t : T)
    : T * option error :=
  match v with
  | JNumber lit =>
      match ParseFloat lit with
      | Some f => (set f t, None)
      | None => (t, Some (UnmarshalTypeError ("number " +:+ lit) name))
      end
  | JNull => (t, None)
  | _ => (t, Some (UnmarshalTypeError (kindName v) name))
  end.

(** A [[]string]: [None] is the nil slice; otherwise the backing array
    (up to its capacity) and the length.  The elements of the slice are
    the first [len] cells of the array. *)
Record slice : Type := mkSlice {
  array : list string;
  len : nat
}.

Definition elements_of (s : option slice) : list string :=
  match s with
  | None => []
  | Some sl => firstn (len sl) (array sl)
  end.

(** Decoding the elements of a JSON array into the cells of a backing
    array, from index [i] on.  Each element is stored into the cell
    already there (a cell past the capacity is a fresh zero cell), so
    [null] and ill-typed elements keep what the cell holds. *)
Fixpoint decodeElems (name : string) (elems : list json) (i : nat)
    (cells : list string) (saved : option error) : list string * option error :=
  match elems with
  | [] => (cells, saved)
  | v :: rest =>
      let old := nth i cells "" in
      let '(new, e) := storeString name (fun s _ => s) v old in
      let cells' :=
        if (i <? length cells)%nat then <[i := new]> cells else (cells ++ [new])%list in
      decodeElems name rest (S i) cells' (saveError saved e)
  end.

(** Storing into a [[]string] field: an array is decoded into the
    existing slice, which ends up with as many elements as the array (an
    empty array gives a fresh empty slice); [null] gives the nil slice;
    anything else is a type error. *)
Definition storeStrings {T : Type} (name : string)
    (get : T -> option slice) (set : option slice -> T -> T)
    (v : json) (t : T) : T * option error :=
  match v with
  | JArray elems =>
      let cells := match get t with Some sl => array sl | None => [] end in
      let '(cells', e) := decodeElems name elems 0 cells None in
      match elems with
      | [] => (set (Some (mkSlice [] 0)) t, e)
      | _ => (set (Some (mkSlice cells' (length elems))) t, e)
      end
  | JNull => (set None t, None)
  | _ => (t, Some (UnmarshalTypeError (kindName v) name))
  end.

(** ** HTTP messages ([net/http], [net/textproto]) *)

Definition isTokenByte (c : ascii) : bool :=
  let n := nat_of_ascii c in
  ((48 <=? n) && (n <=? 57) || (65 <=? n) && (n <=? 90) || (97 <=? n) && (n <=? 122)
   || existsb (Nat.eqb n) [33; 35; 36; 37; 38; 39; 42; 43; 45; 46; 94; 95; 96; 124; 126])%nat.

Fixpoint allTokenBytes (s : string) : bool :=
  match s with
  | EmptyString => true
  | String c rest => isTokenByte c && allTokenBytes rest
  end.

Fixpoint canonicalBytes (upper : bool) (s : string) : string :=
  match s with
  | EmptyString => EmptyString
  | String c rest =>
      let n := nat_of_ascii c in
      let c' :=
        if (upper && (97 <=? n) && (n <=? 122))%nat then ascii_of_nat (n - 32)
        else if (negb upper && (65 <=? n) && (n <=? 90))%nat then ascii_of_nat (n + 32)
        else c in
      String c' (canonicalBytes (nat_of_ascii c' =? 45)%nat rest)
  end.

(** [textproto.CanonicalMIMEHeaderKey]. *)
Definition CanonicalMIMEHeaderKey (s : string) : string :=
  if allTokenBytes s then canonicalBytes true s else s.

(** [Header.Set] and [Header.Get] (also of [textproto.MIMEHeader]). *)
Definition HeaderSet (key value : string) (h : gmap string (list string))
    : gmap string (list string) :=
  <[CanonicalMIMEHeaderKey key := [value]]> h.

Definition HeaderGet (key : string) (h : gmap string (list string)) : string :=
  match h !! CanonicalMIMEHeaderKey key with
  | Some (v :: _) => v
  | _ => ""
  end.

(** ** Multipart bodies ([mime/multipart], [io]) *)

(** One part of a multipart stream: its header and its bytes. *)
Record Part : Type := mkPart {
  PartHeader : gmap string (list string);
  PartData : list Byte.byte
}.

(** A [multipart.Writer] over a [bytes.Buffer]: the boundary, the parts
    written so far (the last one is the open one) and whether the closing
    boundary has been written. *)
Record Writer : Type := mkWriter {
  Boundary : string;
  Parts : list Part;
  Closed : bool
}.

Definition NewWriter (boundary : string) : Writer :=
  {| Boundary := boundary; Parts := []; Closed := false |}.

(** Writes to a [bytes.Buffer] do not fail, so the writer's operations
    always return a nil error; they keep their [result] type so that the
    client's error checks can be written as in the source. *)
Definition CreatePart (h : gmap string (list string)) (w : Writer) : result Writer :=
  Ok {| Boundary := Boundary w; Parts := (Parts w ++ [mkPart h []])%list; Closed := Closed w |}.

(** Writing to the open part. *)
Definition WritePart (data : list Byte.byte) (w : Writer) : Writer :=
  match List.rev (Parts w) with
  | [] => w
  | p :: before =>
      {| Boundary := Boundary w;
         Parts := (List.rev before ++ [mkPart (PartHeader p) (PartData p ++ data)])%list;
         Closed := Closed w |}
  end.

Definition dquote : string := String (ascii_of_nat 34) EmptyString.
Definition backslash : string := String (ascii_of_nat 92) EmptyString.

(** [escapeQuotes]: a backslash and a double quote each get a backslash
    in front. *)
Fixpoint escapeQuotes (s : string) : string :=
  match s with
  | EmptyString => EmptyString
  | String c rest =>
      if (nat_of_ascii c =? 92)%nat then backslash +:+ backslash +:+ escapeQuotes rest
      else if (nat_of_ascii c =? 34)%nat then backslash +:+ dquote +:+ escapeQuotes rest
      else String c (escapeQuotes rest)
  end.

(** [Writer.CreateFormFile]. *)
Definition CreateFormFile (fieldname filename : string) (w : Writer) : result Writer :=
  let h := HeaderSet "Content-Disposition"
             ("form-data; name=" +:+ dquote +:+ escapeQuotes fieldname +:+ dquote
              +:+ "; filename=" +:+ dquote +:+ escapeQuotes filename +:+ dquote) ∅ in
  let h := HeaderSet "Content-Type" "application/octet-stream" h in
  CreatePart h w.

(** [Writer.CreateFormField]. *)
Definition CreateFormField (fieldname : string) (w : Writer) : result Writer :=
  let h := HeaderSet "Content-Disposition"
             ("form-data; name=" +:+ dquote +:+ escapeQuotes fieldname +:+ dquote) ∅ in
  CreatePart h w.

(** [Writer.WriteField]. *)
Definition WriteField (fieldname value : string) (w : Writer) : result Writer :=
  match CreateFormField fieldname w with
  | Err e => Err e
  | Ok w => Ok (WritePart (list_byte_of_string value) w)
  end.

(** [Writer.Close]. *)
Definition Close (w : Writer) : result Writer :=
  Ok {| Boundary := Boundary w; Parts := Parts w; Closed := true |}.

Definition containsAny (s chars : string) : bool :=
  existsb (fun c => existsb (Ascii.eqb c) (list_ascii_of_string chars))
          (list_ascii_of_string s).

(** [Writer.FormDataContentType]. *)
Definition FormDataContentType (w : Writer) : string :=
  let b := Boundary w in
  let b := if containsAny b ("()<>@,;:" +:+ backslash +:+ dquote +:+ "/[]?= ")
           then dquote +:+ b +:+ dquote else b in
  "multipart/form-data; boundary=" +:+ b.

(** An [io.Reader] as the bytes it delivers and how it ends: at end of
    file ([None]) or with a read error. *)
Record Reader : Type := mkReader {
  Data : list Byte.byte;
  Failure : option error
}.

(** [io.Copy(w, r)] into the open part: everything read is written; a
    read error other than end of file is returned. *)
Definition Copy (w : Writer) (src : Reader) : Writer * result Z :=
  let w' := WritePart (Data src) w in
  match Failure src with
  | Some e => (w', Err e)
  | None => (w', Ok (Z.of_nat (length (Data src))))
  end.

(** ** Requests, responses and the round trip *)

(** The buffer handed to [http.NewRequest] as the body: the encoding of
    a JSON document (followed by a newline), or a multipart stream. *)
Inductive Buffer : Type :=
| JSONBuffer (doc : json)
| MultipartBuffer (w : Writer).

Record Request : Type := mkRequest {
  Method : string;
  URL : string;
  Header : gmap string (list string);
  ReqBody : Buffer
}.

Record Response : Type := mkResponse {
  StatusCode : Z;
  RespBody : Body
}.

Definition MethodPost : string := "POST".

(** [http.NewRequest].  It fails on a method that is not a token or a
    URL that does not parse; the client only passes [MethodPost] and
    [host] followed by a constant path. *)
Definition NewRequest (method url : string) (body : Buffer) : result Request :=
  Ok {| Method := method; URL := url; Header := ∅; ReqBody := body |}.

Definition SetHeader (key value : string) (req : Request) : Request :=
  {| Method := Method req; URL := URL req;
     Header := HeaderSet key value (Header req); ReqBody := ReqBody req |}.

(** Computations that may send requests: the state is the log of the
    requests handed to the transport so far. *)
Definition IO (A : Type) : Type := list Request -> A * list Request.

Definition ret {A : Type} (a : A) : IO A := fun sent => (a, sent).

Definition bind {A B : Type} (m : IO A) (k : A -> IO B) : IO B :=
  fun sent => let '(a, sent') := m sent in k a sent'.

Notation "x <- m ;; k" := (bind m (fun x => k))
  (at level 100, m at next level, right associativity).

(** Running a call from an empty log. *)
Definition run {A : Type} (m : IO A) : A * list Request := m [].
Definition outcome {A : Type} (m : IO A) : A := fst (run m).
Definition sent {A : Type} (m : IO A) : list Request := snd (run m).

(** ** The client: types *)

Definition host : string := "https://api.midjourneyapi.io/v2".

Definition ImagineMode : Type := string.
Definition ImagineModeFast : ImagineMode := "fast".
Definition ImagineModeTurbo : ImagineMode := "turbo".

Definition StatusWaitingToStart : string := "waiting-to-start".
Definition StatusRunning : string := "running".

Module ResultRequest.
Record t : Type := mk { TaskId : string; Position : Z }.
End ResultRequest.

Module ResultResponse.
Record t (F : Type) : Type := mk { Status : string; Percentage : F }.
Arguments mk {F} Status Percentage.
Arguments Status {F} _.
Arguments Percentage {F} _.
End ResultResponse.

Record Client : Type := mkClient { apiKey : string }.

Definition NewClient (apiKey : string) : Client := {| apiKey := apiKey |}.

Module ImagineRequest.
Record t : Type := mk { Prompt : string; Mode : ImagineMode; CallbackURL : string }.
End ImagineRequest.

Module ImagineResponse.
Record t : Type := mk { TaskId : string }.
End ImagineResponse.

Module ImagineResultResponse.
Record t (F : Type) : Type := mk { ResultResponse : ResultResponse.t F; ImageURL : string }.
Arguments mk {F} ResultResponse ImageURL.
Arguments ResultResponse {F} _.
Arguments ImageURL {F} _.
End ImagineResultResponse.

Module DescribeResultResponse.
Record t (F : Type) : Type := mk { ResultResponse : ResultResponse.t F; Content : option slice }.
Arguments mk {F} ResultResponse Content.
Arguments ResultResponse {F} _.
Arguments Content {F} _.
End DescribeResultResponse.

Module SeedRequest.
Record t : Type := mk { TaskId : string; CallbackURL : string }.
End SeedRequest.

Module SeedResponse.
Record t : Type := mk { TaskId : string }.
End SeedResponse.

Module SeedResultResponse.
Record t (F : Type) : Type := mk { ResultResponse : ResultResponse.t F; Seed : string }.
Arguments mk {F} ResultResponse Seed.
Arguments ResultResponse {F} _.
Arguments Seed {F} _.
End SeedResultResponse.

Module UpscaleRequest.
Record t : Type := mk { TaskId : string; Position : Z; CallbackURL : string }.
End UpscaleRequest.

Module UpscaleResponse.
Record t : Type := mk { ImageURL : string }.
End UpscaleResponse.

Module FaceswapRequest.
Record t : Type := mk { TargetImageURL : string; FaceImageURL : string }.
End FaceswapRequest.

Module FaceswapResponse.
Record t : Type := mk { ImageURL : string }.
End FaceswapResponse.

(** *** The [json] tags of the request structs *)

#[global] Instance ResultRequest_Marshaler : Marshaler ResultRequest.t :=
  fun r => encodeStruct
    [ mkField "taskId" false (VString (ResultRequest.TaskId r));
      mkField "position" true (VInt (ResultRequest.Position r)) ].

#[global] Instance ImagineRequest_Marshaler : Marshaler ImagineRequest.t :=
  fun r => encodeStruct
    [ mkField "prompt" false (VString (ImagineRequest.Prompt r));
      mkField "mode" true (VString (ImagineRequest.Mode r));
      mkField "callbackURL" true (VString (ImagineRequest.CallbackURL r)) ].

#[global] Instance SeedRequest_Marshaler : Marshaler SeedRequest.t :=
  fun r => encodeStruct
    [ mkField "taskId" false (VString (SeedRequest.TaskId r));
      mkField "callbackURL" false (VString (SeedRequest.CallbackURL r)) ].

#[global] Instance UpscaleRequest_Marshaler : Marshaler UpscaleRequest.t :=
  fun r => encodeStruct
    [ mkField "taskId" false (VString (UpscaleRequest.TaskId r));
      mkField "position" false (VInt (UpscaleRequest.Position r));
      mkField "callback_url" true (VString (UpscaleRequest.CallbackURL r)) ].

#[global] Instance FaceswapRequest_Marshaler : Marshaler FaceswapRequest.t :=
  fun r => encodeStruct
    [ mkField "targetImageURL" false (VString (FaceswapRequest.TargetImageURL r));
      mkField "faceImageURL" false (VString (FaceswapRequest.FaceImageURL r)) ].

(** *** The [json] tags of the response structs *)

#[global] Instance ImagineResponse_Zero : Zero ImagineResponse.t :=
  ImagineResponse.mk "".
#[global] Instance ImagineResponse_Unmarshaler : Unmarshaler ImagineResponse.t :=
  {| typeName := "ImagineResponse";
     fieldsOf :=
       [ mkFieldSpec "taskId"
           (storeString "ImagineResponse.taskId" (fun s _ => ImagineResponse.mk s)) ] |}.

(** [SeedResponse.TaskId] has no tag: its JSON name is the field name. *)
#[global] Instance SeedResponse_Zero : Zero SeedResponse.t :=
  SeedResponse.mk "".
#[global] Instance SeedResponse_Unmarshaler : Unmarshaler SeedResponse.t :=
  {| typeName := "SeedResponse";
     fieldsOf :=
       [ mkFieldSpec "TaskId"
           (storeString "SeedResponse.TaskId" (fun s _ => SeedResponse.mk s)) ] |}.

#[global] Instance UpscaleResponse_Zero : Zero UpscaleResponse.t :=
  UpscaleResponse.mk "".
#[global] Instance UpscaleResponse_Unmarshaler : Unmarshaler UpscaleResponse.t :=
  {| typeName := "UpscaleResponse";
     fieldsOf :=
       [ mkFieldSpec "imageURL"
           (storeString "UpscaleResponse.imageURL" (fun s _ => UpscaleResponse.mk s)) ] |}.

#[global] Instance FaceswapResponse_Zero : Zero FaceswapResponse.t :=
  FaceswapResponse.mk "".
#[global] Instance FaceswapResponse_Unmarshaler : Unmarshaler FaceswapResponse.t :=
  {| typeName := "FaceswapResponse";
     fieldsOf :=
       [ mkFieldSpec "imageURL"
           (storeString "FaceswapResponse.imageURL" (fun s _ => FaceswapResponse.mk s)) ] |}.

Section ResultTypes.
Context {F : Type} `{Float64 F}.

#[global] Instance ResultResponse_Zero : Zero (ResultResponse.t F) :=
  ResultResponse.mk "" float64_zero.

Definition setStatus (s : string) (r : ResultResponse.t F) : ResultResponse.t F :=
  ResultResponse.mk s (ResultResponse.Percentage r).
Definition setPercentage (p : F) (r : ResultResponse.t F) : ResultResponse.t F :=
  ResultResponse.mk (ResultResponse.Status r) p.

(** The fields of the embedded [ResultResponse] are promoted: they
    are addressed by their own keys in the embedding struct. *)
#[global] Instance ImagineResultResponse_Zero : Zero (ImagineResultResponse.t F) :=
  ImagineResultResponse.mk zero "".
#[global] Instance ImagineResultResponse_Unmarshaler
    : Unmarshaler (ImagineResultResponse.t F) :=
  {| typeName := "ImagineResultResponse";
     fieldsOf :=
       [ mkFieldSpec "status"
           (storeString "ImagineResultResponse.status" (fun s r =>
              ImagineResultResponse.mk
                (setStatus s (ImagineResultResponse.ResultResponse r))
                (ImagineResultResponse.ImageURL r)));
         mkFieldSpec "percentage"
           (storeFloat64 "ImagineResultResponse.percentage" (fun p r =>
              ImagineResultResponse.mk
                (setPercentage p (ImagineResultResponse.ResultResponse r))
                (ImagineResultResponse.ImageURL r)));
         mkFieldSpec "image_url"
           (storeString "ImagineResultResponse.image_url" (fun s r =>
              ImagineResultResponse.mk (ImagineResultResponse.ResultResponse r) s)) ] |}.

#[global] Instance DescribeResultResponse_Zero : Zero (DescribeResultResponse.t F) :=
  DescribeResultResponse.mk zero None.
#[global] Instance DescribeResultResponse_Unmarshaler
    : Unmarshaler (DescribeResultResponse.t F) :=
  {| typeName := "DescribeResultResponse";
     fieldsOf :=
       [ mkFieldSpec "status"
           (storeString "DescribeResultResponse.status" (fun s r =>
              DescribeResultResponse.mk
                (setStatus s (DescribeResultResponse.ResultResponse r))
                (DescribeResultResponse.Content r)));
         mkFieldSpec "percentage"
           (storeFloat64 "DescribeResultResponse.percentage" (fun p r =>
              DescribeResultResponse.mk
                (setPercentage p (DescribeResultResponse.ResultResponse r))
                (DescribeResultResponse.Content r)));
         mkFieldSpec "content"
           (storeStrings "DescribeResultResponse.content"
              DescribeResultResponse.Content
              (fun c r =>
                 DescribeResultResponse.mk (DescribeResultResponse.ResultResponse r) c)) ] |}.

#[global] Instance SeedResultResponse_Zero : Zero (SeedResultResponse.t F) :=
  SeedResultResponse.mk zero "".
#[global] Instance SeedResultResponse_Unmarshaler
    : Unmarshaler (SeedResultResponse.t F) :=
  {| typeName := "SeedResultResponse";
     fieldsOf :=
       [ mkFieldSpec "status"
           (storeString "SeedResultResponse.status" (fun s r =>
              SeedResultResponse.mk
                (setStatus s (SeedResultResponse.ResultResponse r))
                (SeedResultResponse.Seed r)));
         mkFieldSpec "percentage"
           (storeFloat64 "SeedResultResponse.percentage" (fun p r =>
              SeedResultResponse.mk
                (setPercentage p (SeedResultResponse.ResultResponse r))
                (SeedResultResponse.Seed r)));
         mkFieldSpec "seed"
           (storeString "SeedResultResponse.seed" (fun s r =>
              SeedResultResponse.mk (SeedResultResponse.ResultResponse r) s)) ] |}.
End ResultTypes.

(** ** The client: operations *)

Definition getArrayFirstOrEmpty {T : Type} `{Zero T} (a : list T) : T :=
  let r := zero in
  if (1 <=? length a)%nat then nth 0 a r else r.

Section Operations.
(** [http.DefaultClient.Do]: what the transport answers to a request. *)
Variable RoundTrip : Request -> result Response.

Definition Do (req : Request) : IO (result Response) :=
  fun sent => (RoundTrip req, (sent ++ [req])%list).

(** [postJson] returns its error together with the struct that
    [response] points to, as the decoder left it. *)
Definition postJson {Req Resp : Type} `{Marshaler Req} `{Unmarshaler Resp}
    (self : Client) (path : string) (request : Req) (response : Resp)
    : IO (Resp * option error) :=
  match Encode request with
  | Err err => ret (response, Some err)
  | Ok body =>
      match NewRequest MethodPost (host +:+ path) (JSONBuffer body) with
      | Err err => ret (response, Some err)
      | Ok req =>
          let req := SetHeader "Content-Type" "application/json" req in
          let req := SetHeader "Authorization" (apiKey self) req in
          res <- Do req ;;
          match res with
          | Err err => ret (response, Some err)
          | Ok res =>
              let '(response, err) := Decode (RespBody res) response in
              match err with
              | Some err => ret (response, Some err)
              | None => ret (response, None)
              end
          end
      end
  end.

Definition Imagine (self : Client) (prompt : string) (mode : ImagineMode)
    (callbackURL : list string) : IO (string * option error) :=
  let result : ImagineResponse.t := zero in
  r <- postJson self "/imagine"
         {| ImagineRequest.Prompt := prompt;
            ImagineRequest.Mode := mode;
            ImagineRequest.CallbackURL := getArrayFirstOrEmpty callbackURL |}
         result ;;
  let '(result, err) := r in
  ret (ImagineResponse.TaskId result, err).

Definition Seed (self : Client) (taskId : string) (callbackURL : list string)
    : IO (string * option error) :=
  let result : SeedResponse.t := zero in
  r <- postJson self "/seed"
         {| SeedRequest.TaskId := taskId;
            SeedRequest.CallbackURL := getArrayFirstOrEmpty callbackURL |}
         result ;;
  let '(result, err) := r in
  ret (SeedResponse.TaskId result, err).

Definition Upscale (self : Client) (taskId : string) (position : Z)
    (callbackURL : list string) : IO (string * option error) :=
  let result : UpscaleResponse.t := zero in
  r <- postJson self "/upscale"
         {| UpscaleRequest.TaskId := taskId;
            UpscaleRequest.Position := position;
            UpscaleRequest.CallbackURL := getArrayFirstOrEmpty callbackURL |}
         result ;;
  let '(result, err) := r in
  ret (UpscaleResponse.ImageURL result, err).

Definition Faceswap (self : Client) (targetImageURL faceImageURL : string)
    : IO (string * option error) :=
  let result : FaceswapResponse.t := zero in
  r <- postJson self "/faceswap"
         {| FaceswapRequest.TargetImageURL := targetImageURL;
            FaceswapRequest.FaceImageURL := faceImageURL |}
         result ;;
  let '(result, err) := r in
  ret (FaceswapResponse.ImageURL result, err).

Section Results.
Context {F : Type} `{Float64 F}.

(** A returned [*T] is [None] for the nil pointer. *)
Definition ImagineResult (self : Client) (taskId : string) (position : list Z)
    : IO (option (ImagineResultResponse.t F) * option error) :=
  let result : ImagineResultResponse.t F := zero in
  r <- postJson self "/result"
         {| ResultRequest.TaskId := taskId;
            ResultRequest.Position := getArrayFirstOrEmpty position |}
         result ;;
  let '(result, err) := r in
  match err with
  | Some err => ret (None, Some err)
  | None => ret (Some result, None)
  end.

(** A field left out of a composite literal has its zero value. *)
Definition DescribeResult (self : Client) (taskId : string)
    : IO (option (DescribeResultResponse.t F) * option error) :=
  let result : DescribeResultResponse.t F := zero in
  r <- postJson self "/result"
         {| ResultRequest.TaskId := taskId;
            ResultRequest.Position := zero |}
         result ;;
  let '(result, err) := r in
  match err with
  | Some err => ret (None, Some err)
  | None => ret (Some result, None)
  end.

Definition SeedResult (self : Client) (taskId : string)
    : IO (option (SeedResultResponse.t F) * option error) :=
  let result : SeedResultResponse.t F := zero in
  r <- postJson self "/result"
         {| ResultRequest.TaskId := taskId;
            ResultRequest.Position := zero |}
         result ;;
  let '(result, err) := r in
  match err with
  | Some err => ret (None, Some err)
  | None => ret (Some result, None)
  end.
End Results.
End Operations.

(** *** [Describe], first revision *)

Module Rev1.
Module DescribeResponse.
Record t : Type := mk { TaskId : string }.
End DescribeResponse.

#[global] Instance DescribeResponse_Zero : Zero DescribeResponse.t :=
  DescribeResponse.mk "".
#[global] Instance DescribeResponse_Unmarshaler : Unmarshaler DescribeResponse.t :=
  {| typeName := "DescribeResponse";
     fieldsOf :=
       [ mkFieldSpec "task_id"
           (storeString "DescribeResponse.task_id" (fun s _ => DescribeResponse.mk s)) ] |}.

Section Describe.
Variable RoundTrip : Request -> result Response.
(** The boundary [multipart.NewWriter] draws at random. *)
Variable randomBoundary : string.

Definition Describe (self : Client) (image : Reader) (callbackURL : list string)
    : IO (string * option error) :=
  let mw := NewWriter randomBoundary in
  match CreateFormFile "image" "image.jpg" mw with
  | Err err => ret ("", Some err)
  | Ok mw =>
  match Copy mw image with
  | (_, Err err) => ret ("", Some err)
  | (mw, Ok _) =>
  match (if (1 <=? length callbackURL)%nat
         then WriteField "callbackURL" (nth 0 callbackURL "") mw
         else Ok mw) with
  | Err err => ret ("", Some err)
  | Ok mw =>
  match Close mw with
  | Err err => ret ("", Some err)
  | Ok mw =>
  match NewRequest MethodPost (host +:+ "/describe") (MultipartBuffer mw) with
  | Err err => ret ("", Some err)
  | Ok req =>
      let req := SetHeader "Content-Type" (FormDataContentType mw) req in
      let req := SetHeader "Authorization" (apiKey self) req in
      res <- Do RoundTrip req ;;
      match res with
      | Err err => ret ("", Some err)
      | Ok res =>
          let result : DescribeResponse.t := zero in
          let '(result, err) := Decode (RespBody res) result in
          match err with
          | Some err => ret ("", Some err)
          | None => ret (DescribeResponse.TaskId result, None)
          end
      end
  end end end end end.
End Describe.
End Rev1.

(** *** [Describe], second revision *)

Module Rev2.
Module DescribeResponse.
Record t : Type := mk { TaskId : string }.
End DescribeResponse.

#[global] Instance DescribeResponse_Zero : Zero DescribeResponse.t :=
  DescribeResponse.mk "".
#[global] Instance DescribeResponse_Unmarshaler : Unmarshaler DescribeResponse.t :=
  {| typeName := "DescribeResponse";
     fieldsOf :=
       [ mkFieldSpec "taskId"
           (storeString "DescribeResponse.taskId" (fun s _ => DescribeResponse.mk s)) ] |}.

Section Describe.
Variable RoundTrip : Request -> result Response.
Variable randomBoundary : string.

Definition Describe (self : Client) (image : Reader) (callbackURL : list string)
    : IO (string * option error) :=
  let mw := NewWriter randomBoundary in
  let h : gmap string (list string) := ∅ in
  let h := HeaderSet "Content-Disposition"
             ("form-data; name=" +:+ dquote +:+ "image" +:+ dquote
              +:+ "; filename=" +:+ dquote +:+ "image.jpg" +:+ dquote) h in
  let h := HeaderSet "Content-Type" "image/jpeg" h in
  match CreatePart h mw with
  | Err err => ret ("", Some err)
  | Ok mw =>
  match Copy mw image with
  | (_, Err err) => ret ("", Some err)
  | (mw, Ok _) =>
  match (if (1 <=? length callbackURL)%nat
         then WriteField "callbackURL" (nth 0 callbackURL "") mw
         else Ok mw) with
  | Err err => ret ("", Some err)
  | Ok mw =>
  match Close mw with
  | Err err => ret ("", Some err)
  | Ok mw =>
  match NewRequest MethodPost (host +:+ "/describe") (MultipartBuffer mw) with
  | Err err => ret ("", Some err)
  | Ok req =>
      let req := SetHeader "Content-Type" (FormDataContentType mw) req in
      let req := SetHeader "Authorization" (apiKey self) req in
      res <- Do RoundTrip req ;;
      match res with
      | Err err => ret ("", Some err)
      | Ok res =>
          match ReadAll (RespBody res) with
          | Err err => ret ("", Some err)
          | Ok resbody =>
              let result : DescribeResponse.t := zero in
              let '(result, err) := Unmarshal resbody result in
              match err with
              | Some err => ret ("", Some err)
              | None => ret (DescribeResponse.TaskId result, None)
              end
          end
      end
  end end end end end.
End Describe.
End Rev2.

(** ** The API as a whole *)

(** One constructor per exported method, with its arguments; a variadic
    parameter is the list of the values supplied. *)
Inductive Call : Type :=
| CallImagine (prompt : string) (mode : ImagineMode) (callbackURL : list string)
| CallImagineResult (taskId : string) (position : list Z)
| CallDescribeRev1 (image : Reader) (callbackURL : list string)
| CallDescribeRev2 (image : Reader) (callbackURL : list string)
| CallDescribeResult (taskId : string)
| CallSeed (taskId : string) (callbackURL : list string)
| CallSeedResult (taskId : string)
| CallUpscale (taskId : string) (position : Z) (callbackURL : list string)
| CallFaceswap (targetImageURL faceImageURL : string).

(** The non-error output of a method: a string, or a pointer to a result
    struct. *)
Inductive Output (F : Type) : Type :=
| OutString (s : string)
| OutImagineResult (p : option (ImagineResultResponse.t F))
| OutDescribeResult (p : option (DescribeResultResponse.t F))
| OutSeedResult (p : option (SeedResultResponse.t F)).
Arguments OutString {F} s.
Arguments OutImagineResult {F} p.
Arguments OutDescribeResult {F} p.
Arguments OutSeedResult {F} p.

Section Invoke.
Context {F : Type} `{Float64 F}.
Variable RoundTrip : Request -> result Response.
Variable randomBoundary : string.

Definition wrap {A : Type} (inj : A -> Output F) (m : IO (A * option error))
    : IO (Output F * option error) :=
  r <- m ;; ret (inj (fst r), snd r).

Definition invoke (self : Client) (c : Call) : IO (Output F * option error) :=
  match c with
  | CallImagine prompt mode callbackURL =>
      wrap OutString (Imagine RoundTrip self prompt mode callbackURL)
  | CallImagineResult taskId position =>
      wrap OutImagineResult (ImagineResult RoundTrip self taskId position)
  | CallDescribeRev1 image callbackURL =>
      wrap OutString (Rev1.Describe RoundTrip randomBoundary self image callbackURL)
  | CallDescribeRev2 image callbackURL =>
      wrap OutString (Rev2.Describe RoundTrip randomBoundary self image callbackURL)
  | CallDescribeResult taskId =>
      wrap OutDescribeResult (DescribeResult RoundTrip self taskId)
  | CallSeed taskId callbackURL =>
      wrap OutString (Seed RoundTrip self taskId callbackURL)
  | CallSeedResult taskId =>
      wrap OutSeedResult (SeedResult RoundTrip self taskId)
  | CallUpscale taskId position callbackURL =>
      wrap OutString (Upscale RoundTrip self taskId position callbackURL)
  | CallFaceswap targetImageURL faceImageURL =>
      wrap OutString (Faceswap RoundTrip self targetImageURL faceImageURL)
  end.

(** The call handed a request to the transport and the transport
    answered [res]. *)
Definition answered {A : Type} (m : IO A) (res : result Response) : Prop :=
  exists req, In req (sent m) /\ RoundTrip req = res.
End Invoke.

(** Decoding a response body for a call: the struct the body decodes
    into, seen through the field the method returns, and the decode
    error if any. *)
Definition decodeField {T : Type} `{Unmarshaler T} `{Zero T} {F : Type}
    (proj : T -> Output F) (body : Body) : Output F * option error :=
  let '(r, e) := Decode body (zero : T) in (proj r, e).

Definition decodeFor {F : Type} `{Float64 F} (c : Call) (body : Body)
    : Output F * option error :=
  match c with
  | CallImagine _ _ _ =>
      decodeField (fun r => OutString (ImagineResponse.TaskId r)) body
  | CallImagineResult _ _ =>
      decodeField (T := ImagineResultResponse.t F) (fun r => OutImagineResult (Some r)) body
  | CallDescribeRev1 _ _ =>
      decodeField (fun r => OutString (Rev1.DescribeResponse.TaskId r)) body
  | CallDescribeRev2 _ _ =>
      match ReadAll body with
      | Err e => (OutString "", Some e)
      | Ok data =>
          let '(r, e) := Unmarshal data (zero : Rev2.DescribeResponse.t) in
          (OutString (Rev2.DescribeResponse.TaskId r), e)
      end
  | CallDescribeResult _ =>
      decodeField (T := DescribeResultResponse.t F) (fun r => OutDescribeResult (Some r)) body
  | CallSeed _ _ =>
      decodeField (fun r => OutString (SeedResponse.TaskId r)) body
  | CallSeedResult _ =>
      decodeField (T := SeedResultResponse.t F) (fun r => OutSeedResult (Some r)) body
  | CallUpscale _ _ _ =>
      decodeField (fun r => OutString (UpscaleResponse.ImageURL r)) body
  | CallFaceswap _ _ =>
      decodeField (fun r => OutString (FaceswapResponse.ImageURL r)) body
  end.

(** The zero-valued output of a call. *)
Definition zeroOutput {F : Type} (c : Call) : Output F :=
  match c with
  | CallImagineResult _ _ => OutImagineResult None
  | CallDescribeResult _ => OutDescribeResult None
  | CallSeedResult _ => OutSeedResult None
  | _ => OutString ""
  end.

(** The request [postJson] builds for a body. *)
Definition jsonRequest (self : Client) (path : string) (body : json) : Request :=
  {| Method := MethodPost;
     URL := host +:+ path;
     Header := HeaderSet "Authorization" (apiKey self)
                 (HeaderSet "Content-Type" "application/json" ∅);
     ReqBody := JSONBuffer body |}.

(** The headers of the two kinds of part [Describe] writes. *)
Definition imageDisposition : string :=
  "form-data; name=" +:+ dquote +:+ "image" +:+ dquote
  +:+ "; filename=" +:+ dquote +:+ "image.jpg" +:+ dquote.

Definition fieldDisposition (name : string) : string :=
  "form-data; name=" +:+ dquote +:+ name +:+ dquote.

(** A stand-in for [float64] on which the model can be run: a number
    is kept as its literal. *)
Definition literalFloat64 : Float64 string :=
  {| float64_zero := "0"; ParseFloat := fun lit => Some lit |}.

(** Building the body fails only in [Describe], when reading the image
    fails. *)
Definition constructionFailure (c : Call) : option error :=
  match c with
  | CallDescribeRev1 image _ => Failure image
  | CallDescribeRev2 image _ => Failure image
  | _ => None
  end.

(** The methods that return their output only when the error is nil;
    the others return the field of the response struct next to the
    error, whatever the error is. *)
Definition guarded (c : Call) : bool :=
  match c with
  | CallImagine _ _ _ => false
  | CallSeed _ _ => false
  | CallUpscale _ _ _ => false
  | CallFaceswap _ _ => false
  | _ => true
  end.

Definition settle {F : Type} (c : Call) (d : Output F * option error)
    : Output F * option error :=
  if guarded c
  then match snd d with
       | Some e => (zeroOutput c, Some e)
       | None => (fst d, None)
       end
  else d.

(** The parts [Describe] writes: the image part with a content type,
    and a form field. *)
Definition imagePart (contentType : string) (data : list Byte.byte) : Part :=
  {| PartHeader := <["Content-Type" := [contentType]]>
                     (<["Content-Disposition" := [imageDisposition]]> ∅);
     PartData := data |}.

Definition fieldPart (name value : string) : Part :=
  {| PartHeader := <["Content-Disposition" := [fieldDisposition name]]> ∅;
     PartData := list_byte_of_string value |}.

(** The parts written for the variadic [callbackURL]. *)
Definition callbackParts (callbackURL : list string) : list Part :=
  match callbackURL with
  | [] => []
  | url :: _ => [fieldPart "callbackURL" url]
  end.

(** A part has form name [name] when its only [Content-Disposition]
    is [form-data] with that [name] parameter first, as the multipart
    writer puts it. *)
Definition hasFormName (name : string) (p : Part) : bool :=
  match PartHeader p !! "Content-Disposition" with
  | Some [v] => String.prefix (fieldDisposition name) v
  | _ => false
  end.

(** A part is the uploaded file [filename] of field [name]. *)
Definition hasFileName (name filename : string) (p : Part) : bool :=
  match PartHeader p !! "Content-Disposition" with
  | Some [v] =>
      String.eqb v (fieldDisposition name +:+ "; filename=" +:+ dquote
                    +:+ filename +:+ dquote)
  | _ => false
  end.

(** The body the scanner sees for the text [{"taskId": s}]. *)
Definition taskIdBody (s : string) : Body :=
  mkBody [JObject [("taskId", JString s)]] CleanEnd.

(** The body for the text [{"taskId":"T1","taskId":5}]. *)
Definition repeatedKeyBody : Body :=
  mkBody [JObject [("taskId", JString "T1"); ("taskId", JNumber "5")]] CleanEnd.

(** A transport that answers every request with the same response. *)
Definition always (res : result Response) : Request -> result Response :=
  fun _ => res.

(** The request [Describe] builds for an image that is read to its end:
    the image part carries [contentType]. *)
Definition describeRequest (boundary : string) (self : Client)
    (contentType : string) (data : list Byte.byte) (callbackURL : list string)
    : Request :=
  {| Method := MethodPost;
     URL := host +:+ "/describe";
     Header := HeaderSet "Authorization" (apiKey self)
                 (HeaderSet "Content-Type"
                    (FormDataContentType (NewWriter boundary)) ∅);
     ReqBody := MultipartBuffer
                  {| Boundary := boundary;
                     Parts := imagePart contentType data :: callbackParts callbackURL;
                     Closed := true |} |}.

(** ** The requests and answers of the API, written out *)

(** A member that is left out when its string is empty, its integer 0. *)
Definition optionalString (key s : string) : list (string * json) :=
  if String.eqb s "" then [] else [(key, JString s)].

Definition optionalInt (key : string) (n : Z) : list (string * json) :=
  if n =? 0 then [] else [(key, JNumber (FormatInt n))].

(** The path each method posts to. *)
Definition pathOf (c : Call) : string :=
  match c with
  | CallImagine _ _ _ => "/imagine"
  | CallImagineResult _ _ => "/result"
  | CallDescribeRev1 _ _ => "/describe"
  | CallDescribeRev2 _ _ => "/describe"
  | CallDescribeResult _ => "/result"
  | CallSeed _ _ => "/seed"
  | CallSeedResult _ => "/result"
  | CallUpscale _ _ _ => "/upscale"
  | CallFaceswap _ _ => "/faceswap"
  end.


(** The [Content-Type] of each call's request. *)
Definition contentTypeOf (boundary : string) (c : Call) : string :=
  match c with
  | CallDescribeRev1 _ _ => FormDataContentType (NewWriter boundary)
  | CallDescribeRev2 _ _ => FormDataContentType (NewWriter boundary)
  | _ => "application/json"
  end.

(** The JSON name of the field a string-returning method reads its
    output from ([None] for the methods that return a struct). *)
Definition responseKey (c : Call) : option string :=
  match c with
  | CallImagine _ _ _ => Some "taskId"
  | CallDescribeRev1 _ _ => Some "task_id"
  | CallDescribeRev2 _ _ => Some "taskId"
  | CallSeed _ _ => Some "TaskId"
  | CallUpscale _ _ _ => Some "imageURL"
  | CallFaceswap _ _ => Some "imageURL"
  | _ => None
  end.

(** The output of a call whose response struct was left untouched: the
    empty string, or a pointer to the zero struct. *)
Definition untouchedOutput {F : Type} `{Float64 F} (c : Call) : Output F :=
  match c with
  | CallImagineResult _ _ => OutImagineResult (Some zero)
  | CallDescribeResult _ => OutDescribeResult (Some zero)
  | CallSeedResult _ => OutSeedResult (Some zero)
  | _ => OutString ""
  end.

(** The calls that decode with [Decoder.Decode]; the second [Describe]
    reads the whole body and uses [Unmarshal]. *)
Definition usesDecoder (c : Call) : bool :=
  match c with
  | CallDescribeRev2 _ _ => false
  | _ => true
  end.

(** Undoing [escapeQuotes]: a backslash makes the next byte literal. *)
Fixpoint unescapeQuotes (s : string) : string :=
  match s with
  | EmptyString => EmptyString
  | String c rest =>
      if (nat_of_ascii c =? 92)%nat
      then match rest with
           | String d rest' => String d (unescapeQuotes rest')
           | EmptyString => String c EmptyString
           end
      else String c (unescapeQuotes rest)
  end.


(** * Properties *)

(** ** What a call through [postJson] does *)

Section PostJson.
Variable RoundTrip : Request -> result Response.

(** With a body that encodes, [postJson] sends exactly one request and
    returns the transport's error, or what the decoder made of the
    response body. *)
Lemma postJson_run {Req Resp : Type} `{Marshaler Req} `{Unmarshaler Resp}
    (self : Client) (path : string) (request : Req) (response : Resp)
    (body : json) :
  Encode request = Ok body ->
  run (postJson RoundTrip self path request response) =
    (match RoundTrip (jsonRequest self path body) with
     | Err e => (response, Some e)
     | Ok res => Decode (RespBody res) response
     end, [jsonRequest self path body]).
Proof.
  intros Henc. unfold run, postJson. rewrite Henc. cbn [NewRequest].
  unfold bind, Do, SetHeader, jsonRequest. cbn.
  destruct (RoundTrip _) as [res | e]; cbn; [| reflexivity].
  destruct (Decode (RespBody res) response) as [r [e |]]; reflexivity.
Qed.

Lemma postJson_sent {Req Resp : Type} `{Marshaler Req} `{Unmarshaler Resp}
    (self : Client) (path : string) (request : Req) (response : Resp)
    (body : json) :
  Encode request = Ok body ->
  sent (postJson RoundTrip self path request response) = [jsonRequest self path body].
Proof.
  intros Henc. unfold sent. rewrite (postJson_run _ _ _ _ _ Henc). reflexivity.
Qed.
End PostJson.

(** ** What every call does *)

Section Calls.
Context {F : Type} `{Float64 F}.
Variable RoundTrip : Request -> result Response.
Variable randomBoundary : string.

Lemma postJson_from {Req Resp : Type} `{Marshaler Req} `{Unmarshaler Resp}
    (self : Client) (path : string) (request : Req) (response : Resp)
    (body : json) :
  Encode request = Ok body ->
  postJson RoundTrip self path request response [] =
    (match RoundTrip (jsonRequest self path body) with
     | Err e => (response, Some e)
     | Ok res => Decode (RespBody res) response
     end, [jsonRequest self path body]).
Proof. apply postJson_run. Qed.

Ltac settle_decode :=
  unfold settle, decodeFor, decodeField; cbn [guarded];
  try match goal with
      | |- context [ReadAll ?b] =>
          destruct (ReadAll b) as [data' | e']; [| reflexivity]
      end;
  match goal with
  | |- context [Decode ?b ?z] => destruct (Decode b z) as [r [e |]]
  | |- context [Unmarshal ?b ?z] => destruct (Unmarshal b z) as [r [e |]]
  end; reflexivity.

Ltac pick_request :=
  match goal with
  | |- context [RoundTrip ?r] =>
      exists r; split; [vm_compute; reflexivity | split; [reflexivity |]];
      destruct (RoundTrip r) as [res | e]; [settle_decode | reflexivity]
  end.

Ltac json_call :=
  right; split; [reflexivity |];
  unfold run, invoke, wrap, Imagine, ImagineResult, DescribeResult, Seed,
    SeedResult, Upscale, Faceswap, bind;
  erewrite postJson_from by reflexivity;
  pick_request.

Ltac describe_call image cb :=
  destruct image as [data [e |]];
  [ left; exists e; split; reflexivity
  | right; split; [reflexivity |];
    destruct cb as [| url more];
    unfold run, invoke, wrap, Rev1.Describe, Rev2.Describe, bind, Do;
    cbn [Copy Failure Data CreateFormFile CreatePart WritePart WriteField
         CreateFormField Close NewRequest NewWriter length Nat.leb nth
         Parts rev app Boundary Closed PartHeader PartData];
    pick_request ].

(** Every call either fails while building its body and sends nothing,
    or sends exactly one POST request that carries the credential, and
    then returns the transport's error with a zero output, or settles
    on what the response body decodes to. *)
Lemma invoke_cases (self : Client) (c : Call) :
  (exists e, constructionFailure c = Some e /\
     run (invoke (F := F) RoundTrip randomBoundary self c)
       = ((zeroOutput c, Some e), []))
  \/ (constructionFailure c = None /\
      exists req,
        Header req !! "Authorization" = Some [apiKey self] /\
        Method req = MethodPost /\
        run (invoke (F := F) RoundTrip randomBoundary self c)
          = (match RoundTrip req with
             | Err e => (zeroOutput c, Some e)
             | Ok res => settle c (decodeFor c (RespBody res))
             end, [req])).
Proof.
  destruct c as [prompt mode cb | taskId position | image cb | image cb
                | taskId | taskId cb | taskId | taskId position cb | target face].
  - json_call.
  - json_call.
  - describe_call image cb.
  - describe_call image cb.
  - json_call.
  - json_call.
  - json_call.
  - json_call.
  - json_call.
Qed.

(** A call that was answered sent its request, and the answer is the
    transport's answer to that request. *)
Lemma answered_inv (self : Client) (c : Call) (res : result Response) :
  answered RoundTrip (invoke (F := F) RoundTrip randomBoundary self c) res ->
  exists req,
    RoundTrip req = res /\
    Header req !! "Authorization" = Some [apiKey self] /\
    run (invoke (F := F) RoundTrip randomBoundary self c)
      = (match res with
         | Err e => (zeroOutput c, Some e)
         | Ok r => settle c (decodeFor c (RespBody r))
         end, [req]).
Proof.
  intros (req0 & Hin & Hres). unfold sent in Hin.
  destruct (invoke_cases self c) as [(e & _ & Hrun) | (_ & req & Hauth & _ & Hrun)];
    rewrite Hrun in Hin; cbn in Hin.
  - contradiction.
  - destruct Hin as [-> | []]. exists req0. rewrite Hres in Hrun. auto.
Qed.

(** C5. No method looks at the status code: whatever the status of
    the response, if its body decodes without error into the struct
    the method expects, the method returns the decoded result and a
    nil error. *)
Theorem status_code_is_not_inspected (self : Client) (c : Call)
    (code : Z) (body : Body) :
  answered RoundTrip (invoke (F := F) RoundTrip randomBoundary self c)
    (Ok (mkResponse code body)) ->
  snd (decodeFor (F := F) c body) = None ->
  outcome (invoke RoundTrip randomBoundary self c) = (fst (decodeFor c body), None).
Proof.
  intros Hans Hdec. destruct (answered_inv _ _ _ Hans) as (req & _ & _ & Hrun).
  unfold outcome. rewrite Hrun. cbn [fst RespBody]. unfold settle.
  destruct (decodeFor c body) as [o oe]. cbn [fst snd] in *. subst oe.
  destruct (guarded c); reflexivity.
Qed.

(** C7. If the transport returns an error, the method returns that
    very error and a zero output (the empty string, the nil pointer). *)
Theorem transport_error_is_returned (self : Client) (c : Call) (e : error) :
  answered RoundTrip (invoke (F := F) RoundTrip randomBoundary self c) (Err e) ->
  outcome (invoke (F := F) RoundTrip randomBoundary self c) = (zeroOutput c, Some e).
Proof.
  intros Hans. destruct (answered_inv _ _ _ Hans) as (req & _ & _ & Hrun).
  unfold outcome. rewrite Hrun. reflexivity.
Qed.

(** C6. Every request a method hands to the transport carries the
    header [Authorization] with exactly one value, the credential given
    to [NewClient], unchanged. *)
Theorem authorization_is_the_credential (key : string) (c : Call) (req : Request) :
  In req (sent (invoke (F := F) RoundTrip randomBoundary (NewClient key) c)) ->
  Header req !! "Authorization" = Some [key] /\
  HeaderGet "Authorization" (Header req) = key.
Proof.
  intros Hin. unfold sent in Hin.
  destruct (invoke_cases (NewClient key) c)
    as [(e & _ & Hrun) | (_ & req0 & Hauth & _ & Hrun)];
    rewrite Hrun in Hin; cbn in Hin.
  - contradiction.
  - destruct Hin as [<- | []]. split; [exact Hauth |].
    unfold HeaderGet. change (CanonicalMIMEHeaderKey "Authorization") with "Authorization".
    rewrite Hauth. reflexivity.
Qed.

(** A decode error is returned by every method; the guarded methods
    return a zero output with it. *)
Lemma decode_error_is_returned (self : Client) (c : Call)
    (res : Response) (e : error) :
  answered RoundTrip (invoke (F := F) RoundTrip randomBoundary self c) (Ok res) ->
  snd (decodeFor (F := F) c (RespBody res)) = Some e ->
  snd (outcome (invoke (F := F) RoundTrip randomBoundary self c)) = Some e /\
  (guarded c = true ->
   fst (outcome (invoke (F := F) RoundTrip randomBoundary self c)) = zeroOutput c).
Proof.
  intros Hans Hdec. destruct (answered_inv _ _ _ Hans) as (req & _ & _ & Hrun).
  unfold outcome. rewrite Hrun. cbn [fst]. unfold settle.
  destruct (guarded c); rewrite ?Hdec; split; try reflexivity; try exact Hdec.
  discriminate.
Qed.
End Calls.

(** ** The requests that are built *)

Section Requests.
Context {F : Type} `{Float64 F}.
Variable RoundTrip : Request -> result Response.
Variable randomBoundary : string.

Ltac after_round_trip :=
  match goal with
  | |- context [RoundTrip ?r] => destruct (RoundTrip r) as [res | e]
  end;
  [ match goal with
    | |- context [Decode ?b ?z] => destruct (Decode b z) as [r [e |]]
    end; reflexivity
  | reflexivity ].

(** C1. [Seed] without a callback URL: the body still has the member
    [callbackURL], with the empty string as its value.  The tag of
    [SeedRequest.CallbackURL] has no [omitempty], unlike the tags of
    the same field in [ImagineRequest] and [UpscaleRequest]. *)
Theorem Seed_body_keeps_callbackURL (self : Client) (taskId : string) :
  sent (Seed RoundTrip self taskId []) =
    [jsonRequest self "/seed"
       (JObject [("taskId", JString taskId); ("callbackURL", JString "")])].
Proof.
  unfold Seed, sent, run, bind. erewrite postJson_from by reflexivity.
  after_round_trip.
Qed.

(** The optional fields of the other methods are left out when the
    input is absent. *)
Lemma optional_fields_are_omitted (self : Client) (s : string) (position : Z) :
  sent (Imagine RoundTrip self s "" []) =
    [jsonRequest self "/imagine" (JObject [("prompt", JString s)])] /\
  sent (ImagineResult (F := F) RoundTrip self s []) =
    [jsonRequest self "/result" (JObject [("taskId", JString s)])] /\
  sent (Upscale RoundTrip self s position []) =
    [jsonRequest self "/upscale"
       (JObject [("taskId", JString s); ("position", JNumber (FormatInt position))])].
Proof.
  repeat split;
    unfold Imagine, ImagineResult, Upscale, sent, run, bind;
    erewrite postJson_from by reflexivity; after_round_trip.
Qed.

(** C10. [ImagineResult] with the position 0 is the same computation
    as [ImagineResult] without a position, and in both the body is the
    object with the single member [taskId]: the member [position] is
    dropped. *)
Theorem ImagineResult_position_0_is_no_position (self : Client) (taskId : string) :
  ImagineResult (F := F) RoundTrip self taskId [0]
    = ImagineResult RoundTrip self taskId [] /\
  sent (ImagineResult (F := F) RoundTrip self taskId [0]) =
    [jsonRequest self "/result" (JObject [("taskId", JString taskId)])] /\
  sent (ImagineResult (F := F) RoundTrip self taskId []) =
    [jsonRequest self "/result" (JObject [("taskId", JString taskId)])].
Proof.
  split; [reflexivity |].
  split; unfold ImagineResult, sent, run, bind;
    erewrite postJson_from by reflexivity; after_round_trip.
Qed.

(** A position other than 0 is sent. *)
Lemma ImagineResult_position_sent (self : Client) (taskId : string)
    (n : Z) (more : list Z) :
  n <> 0 ->
  sent (ImagineResult (F := F) RoundTrip self taskId (n :: more)) =
    [jsonRequest self "/result"
       (JObject [("taskId", JString taskId); ("position", JNumber (FormatInt n))])].
Proof.
  intros Hn. unfold ImagineResult, sent, run, bind.
  assert (Henc : Encode {| ResultRequest.TaskId := taskId;
                           ResultRequest.Position := getArrayFirstOrEmpty (n :: more) |}
                 = Ok (JObject [("taskId", JString taskId);
                                ("position", JNumber (FormatInt n))])).
  { unfold Encode, ResultRequest_Marshaler, encodeStruct. cbn.
    destruct (Z.eqb_spec n 0); [contradiction | reflexivity]. }
  rewrite (postJson_from _ _ _ _ _ _ Henc). after_round_trip.
Qed.

(** Bringing the request [Describe] builds into the shape of
    [describeRequest]. *)
Ltac describe_request ctype :=
  unfold run, Rev1.Describe, Rev2.Describe, bind, Do;
  cbn [Copy Failure Data CreateFormFile CreatePart WritePart WriteField
       CreateFormField Close NewRequest NewWriter length Nat.leb nth
       Parts rev app Boundary Closed PartHeader PartData];
  match goal with
  | |- context [RoundTrip ?r] =>
      match goal with
      | |- context [describeRequest ?b ?s _ ?d ?cb] =>
          let E := fresh "E" in
          assert (E : r = describeRequest b s ctype d cb)
            by (vm_compute; reflexivity);
          rewrite E; clear E
      end
  end;
  destruct (RoundTrip _) as [res | e]; [| reflexivity];
  try match goal with
      | |- context [ReadAll ?b] => destruct (ReadAll b) as [d | e]; [| reflexivity]
      end;
  match goal with
  | |- context [Unmarshal ?b ?z] => destruct (Unmarshal b z) as [r [e |]]
  | |- context [Decode ?b ?z] => destruct (Decode b z) as [r [e |]]
  end; reflexivity.

(** [Describe] with an image that is read to its end sends one request
    and goes on with the transport's answer. *)
Lemma Describe_run_Rev1 (self : Client) (data : list Byte.byte)
    (callbackURL : list string) :
  run (Rev1.Describe RoundTrip randomBoundary self (mkReader data None) callbackURL) =
    (match RoundTrip (describeRequest randomBoundary self
                        "application/octet-stream" data callbackURL) with
     | Err e => ("", Some e)
     | Ok res =>
         match Decode (RespBody res) (zero : Rev1.DescribeResponse.t) with
         | (_, Some e) => ("", Some e)
         | (result, None) => (Rev1.DescribeResponse.TaskId result, None)
         end
     end,
     [describeRequest randomBoundary self "application/octet-stream" data callbackURL]).
Proof.
  destruct callbackURL as [| url more];
    describe_request "application/octet-stream".
Qed.

Lemma Describe_run_Rev2 (self : Client) (data : list Byte.byte)
    (callbackURL : list string) :
  run (Rev2.Describe RoundTrip randomBoundary self (mkReader data None) callbackURL) =
    (match RoundTrip (describeRequest randomBoundary self
                        "image/jpeg" data callbackURL) with
     | Err e => ("", Some e)
     | Ok res =>
         match ReadAll (RespBody res) with
         | Err e => ("", Some e)
         | Ok resbody =>
             match Unmarshal resbody (zero : Rev2.DescribeResponse.t) with
             | (_, Some e) => ("", Some e)
             | (result, None) => (Rev2.DescribeResponse.TaskId result, None)
             end
         end
     end,
     [describeRequest randomBoundary self "image/jpeg" data callbackURL]).
Proof.
  destruct callbackURL as [| url more]; describe_request "image/jpeg".
Qed.

(** What [Describe] sends when the image is read to its end. *)
Lemma Describe_sent (self : Client) (data : list Byte.byte)
    (callbackURL : list string) :
  sent (Rev2.Describe RoundTrip randomBoundary self (mkReader data None) callbackURL) =
    [ {| Method := MethodPost;
         URL := host +:+ "/describe";
         Header := HeaderSet "Authorization" (apiKey self)
                     (HeaderSet "Content-Type"
                        (FormDataContentType (NewWriter randomBoundary)) ∅);
         ReqBody := MultipartBuffer
                      {| Boundary := randomBoundary;
                         Parts := imagePart "image/jpeg" data
                                  :: callbackParts callbackURL;
                         Closed := true |} |} ].
Proof.
  unfold sent. rewrite Describe_run_Rev2. reflexivity.
Qed.

Lemma Describe_sent_Rev1 (self : Client) (data : list Byte.byte)
    (callbackURL : list string) :
  sent (Rev1.Describe RoundTrip randomBoundary self (mkReader data None) callbackURL) =
    [ {| Method := MethodPost;
         URL := host +:+ "/describe";
         Header := HeaderSet "Authorization" (apiKey self)
                     (HeaderSet "Content-Type"
                        (FormDataContentType (NewWriter randomBoundary)) ∅);
         ReqBody := MultipartBuffer
                      {| Boundary := randomBoundary;
                         Parts := imagePart "application/octet-stream" data
                                  :: callbackParts callbackURL;
                         Closed := true |} |} ].
Proof.
  unfold sent. rewrite Describe_run_Rev1. reflexivity.
Qed.
End Requests.

(** ** [Describe] *)

Section DescribeProperties.
Variable RoundTrip : Request -> result Response.
Variable randomBoundary : string.

(** C2. For an image stream of [N] bytes, the request [Describe]
    sends has a multipart body whose parts are the image part, followed
    by the form field [callbackURL] when a callback URL is supplied, and
    nothing else.  The image part is the only part with form name
    [image]; it has the file name [image.jpg], the content type
    [image/jpeg] and the [N] bytes of the stream as its data.  The form
    field has the first callback URL, byte for byte, as its data. *)
Theorem Describe_multipart_body (self : Client) (data : list Byte.byte)
    (callbackURL : list string) :
  exists (req : Request) (w : Writer) (p : Part),
    sent (Rev2.Describe RoundTrip randomBoundary self (mkReader data None) callbackURL)
      = [req] /\
    ReqBody req = MultipartBuffer w /\
    Parts w = p :: callbackParts callbackURL /\
    filter (fun q => hasFormName "image" q = true) (Parts w) = [p] /\
    hasFileName "image" "image.jpg" p = true /\
    PartHeader p !! "Content-Type" = Some ["image/jpeg"] /\
    PartData p = data /\
    length (PartData p) = length data /\
    match callbackURL with
    | [] => length (Parts w) = 1%nat
    | url :: _ =>
        exists q, Parts w = [p; q] /\
          hasFormName "callbackURL" q = true /\
          PartData q = list_byte_of_string url /\
          string_of_list_byte (PartData q) = url
    end.
Proof.
  eexists _, _, (imagePart "image/jpeg" data).
  split; [apply Describe_sent |].
  split; [reflexivity |].
  split; [reflexivity |].
  split; [destruct callbackURL; reflexivity |].
  split; [reflexivity |].
  split; [reflexivity |].
  split; [reflexivity |].
  split; [reflexivity |].
  destruct callbackURL as [| url more]; [reflexivity |].
  eexists. split; [reflexivity |].
  split; [reflexivity |].
  split; [reflexivity |].
  apply string_of_list_byte_of_string.
Qed.

(** The first revision differs in the content type of the image part:
    [CreateFormFile] declares [application/octet-stream]. *)
Lemma Describe_Rev1_content_type (self : Client) (data : list Byte.byte)
    (callbackURL : list string) :
  exists (req : Request) (w : Writer) (p : Part),
    sent (Rev1.Describe RoundTrip randomBoundary self (mkReader data None) callbackURL)
      = [req] /\
    ReqBody req = MultipartBuffer w /\
    Parts w = p :: callbackParts callbackURL /\
    hasFileName "image" "image.jpg" p = true /\
    PartHeader p !! "Content-Type" = Some ["application/octet-stream"] /\
    PartData p = data.
Proof.
  eexists _, _, (imagePart "application/octet-stream" data).
  split; [apply Describe_sent_Rev1 |].
  repeat split; reflexivity.
Qed.

(** C3. [Describe] decodes the response body as an object and returns
    the value of its member [taskId]: when the transport answers with
    the body [{"taskId": s}], whatever the status, [Describe] returns
    [s] and a nil error. *)
Theorem Describe_returns_taskId (self : Client) (image : Reader)
    (callbackURL : list string) (code : Z) (s : string) :
  answered RoundTrip
    (Rev2.Describe RoundTrip randomBoundary self image callbackURL)
    (Ok (mkResponse code (taskIdBody s))) ->
  outcome (Rev2.Describe RoundTrip randomBoundary self image callbackURL)
    = (s, None).
Proof.
  intros (req & Hin & Hres). revert Hin.
  destruct image as [data [e |]].
  - intros []. 
  - rewrite Describe_sent. intros [<- | []].
    unfold outcome. rewrite Describe_run_Rev2.
    change (RoundTrip (describeRequest randomBoundary self "image/jpeg" data callbackURL)
            = Ok (mkResponse code (taskIdBody s))) in Hres.
    rewrite Hres. reflexivity.
Qed.

(** In the first revision the tag of [DescribeResponse.TaskId] is
    [task_id]: the member [taskId] is an unknown key and is skipped. *)
Lemma Describe_Rev1_skips_taskId (self : Client) (image : Reader)
    (callbackURL : list string) (code : Z) (s : string) :
  answered RoundTrip
    (Rev1.Describe RoundTrip randomBoundary self image callbackURL)
    (Ok (mkResponse code (taskIdBody s))) ->
  outcome (Rev1.Describe RoundTrip randomBoundary self image callbackURL)
    = ("", None).
Proof.
  intros (req & Hin & Hres). revert Hin.
  destruct image as [data [e |]].
  - intros [].
  - rewrite Describe_sent_Rev1. intros [<- | []].
    unfold outcome. rewrite Describe_run_Rev1.
    change (RoundTrip (describeRequest randomBoundary self "application/octet-stream"
                         data callbackURL)
            = Ok (mkResponse code (taskIdBody s))) in Hres.
    rewrite Hres. reflexivity.
Qed.
End DescribeProperties.

(** ** Errors *)

Section Errors.
Variable RoundTrip : Request -> result Response.
Variable randomBoundary : string.

(** C4. A response body that fails to decode after a part of it was
    stored: the text [{"taskId":"T1","taskId":5}] stores ["T1"] and
    then meets a number where a string is expected.  [Imagine] returns
    the decode error together with ["T1"], not with the empty string:
    it returns the field of the response struct without looking at the
    error, where [ImagineResult] and [Describe] return a zero value. *)
Theorem Imagine_returns_partial_result (self : Client) (prompt : string)
    (mode : ImagineMode) (callbackURL : list string) (code : Z) :
  outcome (Imagine (always (Ok (mkResponse code repeatedKeyBody)))
             self prompt mode callbackURL)
    = ("T1", Some (UnmarshalTypeError "number" "ImagineResponse.taskId")).
Proof.
  unfold outcome, run, Imagine, bind.
  erewrite postJson_from by reflexivity. reflexivity.
Qed.

(** The same holds of the other methods that do not guard their
    output. *)
Lemma unguarded_methods_return_partial_results (self : Client) (s t : string)
    (position : Z) (callbackURL : list string) (code : Z) :
  let body (key : string) :=
    mkBody [JObject [(key, JString "T1"); (key, JNumber "5")]] CleanEnd in
  fst (outcome (Seed (always (Ok (mkResponse code (body "taskId"))))
                  self s callbackURL)) = "T1" /\
  fst (outcome (Upscale (always (Ok (mkResponse code (body "imageURL"))))
                  self s position callbackURL)) = "T1" /\
  fst (outcome (Faceswap (always (Ok (mkResponse code (body "imageURL"))))
                  self s t)) = "T1".
Proof.
  repeat split; unfold outcome, run, Seed, Upscale, Faceswap, bind;
    erewrite postJson_from by reflexivity; reflexivity.
Qed.


(** The request structs of the client always encode, so that
    [postJson] fails before sending only for a request of another
    type. *)
Lemma request_structs_encode :
  (forall r : ImagineRequest.t, exists body, Encode r = Ok body) /\
  (forall r : ResultRequest.t, exists body, Encode r = Ok body) /\
  (forall r : SeedRequest.t, exists body, Encode r = Ok body) /\
  (forall r : UpscaleRequest.t, exists body, Encode r = Ok body) /\
  (forall r : FaceswapRequest.t, exists body, Encode r = Ok body).
Proof. repeat split; intros r; eexists; reflexivity. Qed.
End Errors.

(** ** Variadic parameters *)

Section Variadic.
Context {F : Type} `{Float64 F}.
Variable RoundTrip : Request -> result Response.
Variable randomBoundary : string.

Lemma getArrayFirstOrEmpty_nil {T : Type} `{Zero T} :
  getArrayFirstOrEmpty ([] : list T) = zero.
Proof. reflexivity. Qed.

Lemma getArrayFirstOrEmpty_cons {T : Type} `{Zero T} (x : T) (more : list T) :
  getArrayFirstOrEmpty (x :: more) = x.
Proof. reflexivity. Qed.

End Variadic.

(** ** The properties at concrete calls *)


Lemma Describe_returns_taskId_witness :
  answered (always (Ok (mkResponse 404 (taskIdBody "T1"))))
    (Rev2.Describe (always (Ok (mkResponse 404 (taskIdBody "T1")))) "boundary"
       (NewClient "key") (mkReader [Byte.xff; Byte.xd8] None) [])
    (Ok (mkResponse 404 (taskIdBody "T1"))) /\
  outcome (Rev2.Describe (always (Ok (mkResponse 404 (taskIdBody "T1")))) "boundary"
             (NewClient "key") (mkReader [Byte.xff; Byte.xd8] None) [])
    = ("T1", None).
Proof.
  assert (Hans : answered (always (Ok (mkResponse 404 (taskIdBody "T1"))))
            (Rev2.Describe (always (Ok (mkResponse 404 (taskIdBody "T1")))) "boundary"
               (NewClient "key") (mkReader [Byte.xff; Byte.xd8] None) [])
            (Ok (mkResponse 404 (taskIdBody "T1")))).
  { eexists. split; [left; reflexivity | reflexivity]. }
  split; [exact Hans |].
  exact (Describe_returns_taskId _ _ _ _ _ _ _ Hans).
Defined.

Lemma status_code_is_not_inspected_witness :
  answered (always (Ok (mkResponse 500 (taskIdBody "T1"))))
    (invoke (H := literalFloat64) (always (Ok (mkResponse 500 (taskIdBody "T1"))))
       "boundary" (NewClient "key") (CallImagine "a red fox" ImagineModeFast []))
    (Ok (mkResponse 500 (taskIdBody "T1"))) /\
  snd (decodeFor (H := literalFloat64)
         (CallImagine "a red fox" ImagineModeFast []) (taskIdBody "T1")) = None /\
  outcome (invoke (H := literalFloat64)
             (always (Ok (mkResponse 500 (taskIdBody "T1"))))
             "boundary" (NewClient "key") (CallImagine "a red fox" ImagineModeFast []))
    = (OutString "T1", None).
Proof.
  assert (Hans : answered (always (Ok (mkResponse 500 (taskIdBody "T1"))))
            (invoke (H := literalFloat64)
               (always (Ok (mkResponse 500 (taskIdBody "T1"))))
               "boundary" (NewClient "key") (CallImagine "a red fox" ImagineModeFast []))
            (Ok (mkResponse 500 (taskIdBody "T1")))).
  { eexists. split; [left; reflexivity | reflexivity]. }
  split; [exact Hans |]. split; [reflexivity |].
  exact (status_code_is_not_inspected (H := literalFloat64) _ _ _ _ _ _ Hans eq_refl).
Defined.

Lemma transport_error_is_returned_witness :
  answered (always (Err (errorString "connection refused")))
    (invoke (H := literalFloat64) (always (Err (errorString "connection refused")))
       "boundary" (NewClient "key") (CallSeedResult "T1"))
    (Err (errorString "connection refused")) /\
  outcome (invoke (H := literalFloat64) (always (Err (errorString "connection refused")))
             "boundary" (NewClient "key") (CallSeedResult "T1"))
    = (OutSeedResult None, Some (errorString "connection refused")).
Proof.
  assert (Hans : answered (always (Err (errorString "connection refused")))
            (invoke (H := literalFloat64)
               (always (Err (errorString "connection refused")))
               "boundary" (NewClient "key") (CallSeedResult "T1"))
            (Err (errorString "connection refused"))).
  { eexists. split; [left; reflexivity | reflexivity]. }
  split; [exact Hans |].
  exact (transport_error_is_returned (H := literalFloat64) _ _ _ _ _ Hans).
Defined.

Lemma authorization_is_the_credential_witness :
  In (jsonRequest (NewClient "key") "/faceswap"
        (JObject [("targetImageURL", JString "https://x/a.png");
                  ("faceImageURL", JString "https://x/b.png")]))
     (sent (invoke (H := literalFloat64) (always (Err EOF)) "boundary" (NewClient "key")
              (CallFaceswap "https://x/a.png" "https://x/b.png"))) /\
  Header (jsonRequest (NewClient "key") "/faceswap"
            (JObject [("targetImageURL", JString "https://x/a.png");
                      ("faceImageURL", JString "https://x/b.png")]))
    !! "Authorization" = Some ["key"].
Proof.
  assert (Hin : In (jsonRequest (NewClient "key") "/faceswap"
                      (JObject [("targetImageURL", JString "https://x/a.png");
                                ("faceImageURL", JString "https://x/b.png")]))
                   (sent (invoke (H := literalFloat64) (always (Err EOF)) "boundary"
                            (NewClient "key")
                            (CallFaceswap "https://x/a.png" "https://x/b.png")))).
  { left; reflexivity. }
  split; [exact Hin |].
  exact (proj1 (authorization_is_the_credential (H := literalFloat64)
                  _ _ _ _ _ Hin)).
Defined.


(** * Further properties *)

(** ** The request of every call *)

Lemma getArrayFirstOrEmpty_hd {T : Type} `{Zero T} (a : list T) :
  getArrayFirstOrEmpty a = hd zero a.
Proof. destruct a; reflexivity. Qed.

Lemma isEmptyValue_VString (s : string) :
  isEmptyValue (VString s) = String.eqb s "".
Proof. destruct s; reflexivity. Qed.

Lemma Encode_ImagineRequest (prompt mode url : string) :
  Encode (ImagineRequest.mk prompt mode url)
    = Ok (JObject (("prompt", JString prompt)
                   :: optionalString "mode" mode ++ optionalString "callbackURL" url)).
Proof. destruct mode, url; reflexivity. Qed.

Lemma Encode_ResultRequest (taskId : string) (position : Z) :
  Encode (ResultRequest.mk taskId position)
    = Ok (JObject (("taskId", JString taskId) :: optionalInt "position" position)).
Proof.
  unfold Encode, ResultRequest_Marshaler, encodeStruct, optionalInt. cbn.
  destruct (position =? 0); reflexivity.
Qed.

Lemma Encode_UpscaleRequest (taskId : string) (position : Z) (url : string) :
  Encode (UpscaleRequest.mk taskId position url)
    = Ok (JObject (("taskId", JString taskId)
                   :: ("position", JNumber (FormatInt position))
                   :: optionalString "callback_url" url)).
Proof. destruct url; reflexivity. Qed.

Section RequestTable.
Context {F : Type} `{Float64 F}.
Variable RoundTrip : Request -> result Response.
Variable randomBoundary : string.

Ltac finish_json :=
  match goal with
  | |- context [RoundTrip ?r] => destruct (RoundTrip r) as [res | e]
  end;
  [ match goal with
    | |- context [Decode ?b ?z] => destruct (Decode b z) as [r [e |]]
    end; reflexivity
  | reflexivity ].

(** What each method sends. *)
Lemma sent_CallImagine (self : Client) (prompt : string) (mode : ImagineMode)
    (callbackURL : list string) :
  sent (invoke (F := F) RoundTrip randomBoundary self
          (CallImagine prompt mode callbackURL))
    = [jsonRequest self "/imagine"
         (JObject (("prompt", JString prompt)
                   :: optionalString "mode" mode
                   ++ optionalString "callbackURL" (hd "" callbackURL)))].
Proof.
  unfold sent, run, invoke, wrap, bind, Imagine, bind.
  rewrite getArrayFirstOrEmpty_hd.
  rewrite (postJson_from _ _ _ _ _ _ (Encode_ImagineRequest _ _ _)). finish_json.
Qed.

Lemma sent_CallImagineResult (self : Client) (taskId : string) (position : list Z) :
  sent (invoke (F := F) RoundTrip randomBoundary self
          (CallImagineResult taskId position))
    = [jsonRequest self "/result"
         (JObject (("taskId", JString taskId)
                   :: optionalInt "position" (hd 0 position)))].
Proof.
  unfold sent, run, invoke, wrap, bind, ImagineResult, bind.
  rewrite getArrayFirstOrEmpty_hd.
  rewrite (postJson_from _ _ _ _ _ _ (Encode_ResultRequest _ _)). finish_json.
Qed.

Lemma sent_CallDescribe_failure (self : Client) (data : list Byte.byte) (e : error)
    (callbackURL : list string) :
  sent (invoke (F := F) RoundTrip randomBoundary self
          (CallDescribeRev1 (mkReader data (Some e)) callbackURL)) = [] /\
  sent (invoke (F := F) RoundTrip randomBoundary self
          (CallDescribeRev2 (mkReader data (Some e)) callbackURL)) = [].
Proof. split; reflexivity. Qed.

Lemma sent_CallDescribeRev1 (self : Client) (data : list Byte.byte)
    (callbackURL : list string) :
  sent (invoke (F := F) RoundTrip randomBoundary self
          (CallDescribeRev1 (mkReader data None) callbackURL))
    = [describeRequest randomBoundary self "application/octet-stream"
         data callbackURL].
Proof.
  unfold sent, run, invoke, wrap, bind.
  pose proof (Describe_run_Rev1 RoundTrip randomBoundary self data callbackURL) as Hrun.
  unfold run in Hrun. rewrite Hrun. reflexivity.
Qed.

Lemma sent_CallDescribeRev2 (self : Client) (data : list Byte.byte)
    (callbackURL : list string) :
  sent (invoke (F := F) RoundTrip randomBoundary self
          (CallDescribeRev2 (mkReader data None) callbackURL))
    = [describeRequest randomBoundary self "image/jpeg" data callbackURL].
Proof.
  unfold sent, run, invoke, wrap, bind.
  pose proof (Describe_run_Rev2 RoundTrip randomBoundary self data callbackURL) as Hrun.
  unfold run in Hrun. rewrite Hrun. reflexivity.
Qed.

Lemma sent_CallDescribeResult (self : Client) (taskId : string) :
  sent (invoke (F := F) RoundTrip randomBoundary self (CallDescribeResult taskId))
    = [jsonRequest self "/result" (JObject [("taskId", JString taskId)])].
Proof.
  unfold sent, run, invoke, wrap, bind, DescribeResult, bind.
  erewrite postJson_from by reflexivity. finish_json.
Qed.

Lemma sent_CallSeed (self : Client) (taskId : string) (callbackURL : list string) :
  sent (invoke (F := F) RoundTrip randomBoundary self (CallSeed taskId callbackURL))
    = [jsonRequest self "/seed"
         (JObject [("taskId", JString taskId);
                   ("callbackURL", JString (hd "" callbackURL))])].
Proof.
  unfold sent, run, invoke, wrap, bind, Seed, bind.
  rewrite getArrayFirstOrEmpty_hd.
  erewrite postJson_from by reflexivity. finish_json.
Qed.

Lemma sent_CallSeedResult (self : Client) (taskId : string) :
  sent (invoke (F := F) RoundTrip randomBoundary self (CallSeedResult taskId))
    = [jsonRequest self "/result" (JObject [("taskId", JString taskId)])].
Proof.
  unfold sent, run, invoke, wrap, bind, SeedResult, bind.
  erewrite postJson_from by reflexivity. finish_json.
Qed.

Lemma sent_CallUpscale (self : Client) (taskId : string) (position : Z)
    (callbackURL : list string) :
  sent (invoke (F := F) RoundTrip randomBoundary self
          (CallUpscale taskId position callbackURL))
    = [jsonRequest self "/upscale"
         (JObject (("taskId", JString taskId)
                   :: ("position", JNumber (FormatInt position))
                   :: optionalString "callback_url" (hd "" callbackURL)))].
Proof.
  unfold sent, run, invoke, wrap, bind, Upscale, bind.
  rewrite getArrayFirstOrEmpty_hd.
  rewrite (postJson_from _ _ _ _ _ _ (Encode_UpscaleRequest _ _ _)). finish_json.
Qed.

Lemma sent_CallFaceswap (self : Client) (targetImageURL faceImageURL : string) :
  sent (invoke (F := F) RoundTrip randomBoundary self
          (CallFaceswap targetImageURL faceImageURL))
    = [jsonRequest self "/faceswap"
         (JObject [("targetImageURL", JString targetImageURL);
                   ("faceImageURL", JString faceImageURL)])].
Proof.
  unfold sent, run, invoke, wrap, bind, Faceswap, bind.
  erewrite postJson_from by reflexivity. finish_json.
Qed.

End RequestTable.

(** Rewriting what a call sends, once the call is known. *)
Ltac sent_of_call :=
  repeat first
    [ rewrite sent_CallImagine | rewrite sent_CallImagineResult
    | rewrite (proj1 (sent_CallDescribe_failure _ _ _ _ _ _))
    | rewrite (proj2 (sent_CallDescribe_failure _ _ _ _ _ _))
    | rewrite sent_CallDescribeRev1 | rewrite sent_CallDescribeRev2
    | rewrite sent_CallDescribeResult | rewrite sent_CallSeed
    | rewrite sent_CallSeedResult | rewrite sent_CallUpscale
    | rewrite sent_CallFaceswap ].

Section RequestFacts.
Context {F : Type} `{Float64 F}.
Variable randomBoundary : string.


(** X3. What a call sends does not depend on the transport: two
    transports are handed the same requests. *)
Theorem sent_independent_of_transport
    (RoundTrip1 RoundTrip2 : Request -> result Response)
    (self : Client) (c : Call) :
  sent (invoke (F := F) RoundTrip1 randomBoundary self c)
    = sent (invoke (F := F) RoundTrip2 randomBoundary self c).
Proof.
  destruct c as [| | [data [e |]] cb | [data [e |]] cb | | | | |];
    sent_of_call; reflexivity.
Qed.

(** X4. Every request is a POST to [host] followed by the path of the
    method, and its header has exactly two entries: [Content-Type]
    ([application/json], or the multipart type with the boundary for
    [Describe]) and [Authorization]. *)
Theorem request_line_and_header (RoundTrip : Request -> result Response)
    (self : Client) (c : Call) (req : Request) :
  In req (sent (invoke (F := F) RoundTrip randomBoundary self c)) ->
  Method req = "POST" /\
  URL req = "https://api.midjourneyapi.io/v2" +:+ pathOf c /\
  Header req = <["Authorization" := [apiKey self]]>
                 (<["Content-Type" := [contentTypeOf randomBoundary c]]> ∅).
Proof.
  destruct c as [| | [data [e |]] cb | [data [e |]] cb | | | | |];
    sent_of_call; cbn [In];
    first [ intros [<- | []]; repeat split; reflexivity | intros [] ].
Qed.
End RequestFacts.

Lemma request_line_and_header_witness :
  In (jsonRequest (NewClient "key") "/seed"
        (JObject [("taskId", JString "T1"); ("callbackURL", JString "")]))
     (sent (invoke (H := literalFloat64) (always (Err EOF)) "boundary"
              (NewClient "key") (CallSeed "T1" []))) /\
  URL (jsonRequest (NewClient "key") "/seed"
         (JObject [("taskId", JString "T1"); ("callbackURL", JString "")]))
    = "https://api.midjourneyapi.io/v2/seed".
Proof.
  assert (Hin : In (jsonRequest (NewClient "key") "/seed"
                      (JObject [("taskId", JString "T1"); ("callbackURL", JString "")]))
                   (sent (invoke (H := literalFloat64) (always (Err EOF)) "boundary"
                            (NewClient "key") (CallSeed "T1" [])))).
  { left; reflexivity. }
  split; [exact Hin |].
  exact (proj1 (proj2 (request_line_and_header (H := literalFloat64) _ _ _ _ _ Hin))).
Defined.

(** ** The output of every call *)

Section OutputFacts.
Context {F : Type} `{Float64 F}.
Variable RoundTrip : Request -> result Response.
Variable randomBoundary : string.

(** The result of decoding a body for a guarded call is never the nil
    pointer, and no error comes with an output other than the settled
    one. *)
Lemma settle_error (c : Call) (d : Output F * option error) (e : error) :
  guarded c = true ->
  snd (settle c d) = Some e ->
  fst (settle c d) = zeroOutput c.
Proof.
  intros Hg. unfold settle. rewrite Hg.
  destruct d as [o [e' |]]; cbn; [reflexivity | discriminate].
Qed.

(** X5. The methods that check the error before they return
    ([ImagineResult], [DescribeResult], [SeedResult], [Describe]) never
    return an error together with an output: whenever the error is not
    nil (a failed read of the image, a transport error, a decode error)
    the output is the nil pointer or the empty string. *)
Theorem guarded_error_means_zero_output (self : Client) (c : Call) (e : error) :
  guarded c = true ->
  snd (outcome (invoke (F := F) RoundTrip randomBoundary self c)) = Some e ->
  fst (outcome (invoke (F := F) RoundTrip randomBoundary self c)) = zeroOutput c.
Proof.
  intros Hg. unfold outcome.
  destruct (invoke_cases RoundTrip randomBoundary self c)
    as [(e' & _ & Hrun) | (_ & req & _ & _ & Hrun)]; rewrite Hrun; cbn [fst snd].
  - reflexivity.
  - destruct (RoundTrip req) as [res | e']; [| reflexivity].
    apply settle_error; exact Hg.
Qed.

(** X6. [ImagineResult], [DescribeResult] and [SeedResult] return a
    nil pointer exactly when they return an error: with a nil error the
    pointer is not nil. *)
Theorem result_pointer_nil_iff_error (self : Client) (c : Call) :
  responseKey c = None ->
  fst (outcome (invoke (F := F) RoundTrip randomBoundary self c)) = zeroOutput c
  <-> snd (outcome (invoke (F := F) RoundTrip randomBoundary self c)) <> None.
Proof.
  intros Hkey. unfold outcome.
  destruct (invoke_cases RoundTrip randomBoundary self c)
    as [(e' & _ & Hrun) | (_ & req & _ & _ & Hrun)]; rewrite Hrun; cbn [fst snd].
  - split; [discriminate | reflexivity].
  - destruct (RoundTrip req) as [res | e']; [| split; [discriminate | reflexivity]].
    destruct c; try discriminate Hkey;
      unfold settle, decodeFor, decodeField; cbn [guarded];
      match goal with
      | |- context [Decode ?b ?z] => destruct (Decode b z) as [r [e |]]
      end; cbn [fst snd zeroOutput];
      (split; [try discriminate; intros _; discriminate
              | try reflexivity; intros Hn; contradiction Hn; reflexivity]).
Qed.
End OutputFacts.

Lemma guarded_error_means_zero_output_witness :
  guarded (CallDescribeRev2 (mkReader [] None) []) = true /\
  snd (outcome (invoke (H := literalFloat64)
                  (always (Ok (mkResponse 200 (mkBody [JString "busy"] CleanEnd))))
                  "boundary" (NewClient "key")
                  (CallDescribeRev2 (mkReader [] None) [])))
    = Some (UnmarshalTypeError "string" "DescribeResponse") /\
  fst (outcome (invoke (H := literalFloat64)
                  (always (Ok (mkResponse 200 (mkBody [JString "busy"] CleanEnd))))
                  "boundary" (NewClient "key")
                  (CallDescribeRev2 (mkReader [] None) [])))
    = OutString "".
Proof.
  assert (He : snd (outcome (invoke (H := literalFloat64)
                  (always (Ok (mkResponse 200 (mkBody [JString "busy"] CleanEnd))))
                  "boundary" (NewClient "key")
                  (CallDescribeRev2 (mkReader [] None) [])))
               = Some (UnmarshalTypeError "string" "DescribeResponse")).
  { vm_compute. reflexivity. }
  split; [reflexivity |]. split; [exact He |].
  exact (guarded_error_means_zero_output (H := literalFloat64) _ _ _
           (CallDescribeRev2 (mkReader [] None) []) _ eq_refl He).
Defined.

Lemma result_pointer_nil_iff_error_witness :
  responseKey (CallSeedResult "T1") = None /\
  (fst (outcome (invoke (H := literalFloat64) (always (Err EOF)) "boundary"
                   (NewClient "key") (CallSeedResult "T1")))
     = zeroOutput (CallSeedResult "T1")
   <-> snd (outcome (invoke (H := literalFloat64) (always (Err EOF)) "boundary"
                       (NewClient "key") (CallSeedResult "T1"))) <> None).
Proof.
  split; [reflexivity |].
  exact (result_pointer_nil_iff_error (H := literalFloat64) _ _ _
           (CallSeedResult "T1") eq_refl).
Defined.

(** ** Decoding the response *)

(** Members that address no field leave the struct and the saved error
    as they are. *)
Lemma decodeObject_no_match {T : Type} (fs : list (FieldSpec T))
    (members : list (string * json)) (t : T) (saved : option error) :
  Forall (fun m => findField fs (fst m) = None) members ->
  decodeObject fs members t saved = (t, saved).
Proof.
  induction 1 as [| [k v] rest Hk _ IH]; [reflexivity |].
  cbn [decodeObject]. cbn [fst] in Hk. rewrite Hk. exact IH.
Qed.

(** In a struct with one field, a key addresses the field exactly when
    it agrees with the field's name up to [foldName]. *)
Lemma findField_single {T : Type} (f : FieldSpec T) (key : string) :
  findField [f] key
    = if String.eqb (foldName (fieldName f)) (foldName key) then Some f else None.
Proof.
  unfold findField. cbn [find].
  destruct (String.eqb_spec (fieldName f) key) as [-> | Hne].
  - rewrite String.eqb_refl. reflexivity.
  - destruct (String.eqb (foldName (fieldName f)) (foldName key)); reflexivity.
Qed.

Section DecodeFacts.
Context {F : Type} `{Float64 F}.
Variable RoundTrip : Request -> result Response.
Variable randomBoundary : string.

(** What the string-returning calls make of a body that is one JSON
    object: the struct has the single field [responseKey]. *)
Lemma decodeFor_object (c : Call) (k : string) (members : list (string * json)) :
  responseKey c = Some k ->
  exists (T : Type) (mk : string -> T) (get : T -> string) (name : string),
    (forall s, get (mk s) = s) /\
    decodeFor (F := F) c (mkBody [JObject members] CleanEnd)
      = (let '(r, e) :=
           decodeObject [mkFieldSpec k (storeString name (fun s _ => mk s))]
             members (mk "") None in
         (OutString (get r), e)).
Proof.
  destruct c; intros Hk; try discriminate Hk; injection Hk as <-.
  - exists ImagineResponse.t, ImagineResponse.mk, ImagineResponse.TaskId,
      "ImagineResponse.taskId". split; reflexivity.
  - exists Rev1.DescribeResponse.t, Rev1.DescribeResponse.mk,
      Rev1.DescribeResponse.TaskId, "DescribeResponse.task_id". split; reflexivity.
  - exists Rev2.DescribeResponse.t, Rev2.DescribeResponse.mk,
      Rev2.DescribeResponse.TaskId, "DescribeResponse.taskId". split; reflexivity.
  - exists SeedResponse.t, SeedResponse.mk, SeedResponse.TaskId,
      "SeedResponse.TaskId". split; reflexivity.
  - exists UpscaleResponse.t, UpscaleResponse.mk, UpscaleResponse.ImageURL,
      "UpscaleResponse.imageURL". split; reflexivity.
  - exists FaceswapResponse.t, FaceswapResponse.mk, FaceswapResponse.ImageURL,
      "FaceswapResponse.imageURL". split; reflexivity.
Qed.

(** A call that was answered settles on what the body decodes to. *)
Lemma answered_outcome (self : Client) (c : Call) (res : Response) :
  answered RoundTrip (invoke (F := F) RoundTrip randomBoundary self c) (Ok res) ->
  outcome (invoke (F := F) RoundTrip randomBoundary self c)
    = settle c (decodeFor c (RespBody res)).
Proof.
  intros Hans. destruct (answered_inv _ _ _ _ _ Hans) as (req & _ & _ & Hrun).
  unfold outcome. rewrite Hrun. reflexivity.
Qed.

Lemma settle_no_error (c : Call) (o : Output F) :
  settle c (o, None) = (o, None).
Proof. unfold settle. destruct (guarded c); reflexivity. Qed.

(** X7. A response whose body is a JSON object without the member the
    method reads (for instance an error message of the service) is not
    an error: the method returns the empty string and a nil error,
    whatever the status code. *)
Theorem missing_member_is_not_an_error (self : Client) (c : Call) (k : string)
    (members : list (string * json)) (code : Z) :
  responseKey c = Some k ->
  Forall (fun m => foldName (fst m) <> foldName k) members ->
  answered RoundTrip (invoke (F := F) RoundTrip randomBoundary self c)
    (Ok (mkResponse code (mkBody [JObject members] CleanEnd))) ->
  outcome (invoke (F := F) RoundTrip randomBoundary self c) = (OutString "", None).
Proof.
  intros Hk Hms Hans. rewrite (answered_outcome _ _ _ Hans). cbn [RespBody].
  destruct (decodeFor_object c k members Hk) as (T & mk & get & name & Hget & ->).
  rewrite decodeObject_no_match.
  - rewrite Hget. apply settle_no_error.
  - eapply Forall_impl; [exact Hms |]. intros [k' v] Hne. cbn [fst] in *.
    rewrite findField_single. cbn [fieldName].
    destruct (String.eqb_spec (foldName k) (foldName k')) as [Heq | _];
      [| reflexivity].
    contradiction Hne. symmetry. exact Heq.
Qed.

(** X8. The member is found whatever the case of its key: when the
    body is an object with one string member whose key agrees with the
    field's name up to case folding, the method returns the string. *)
Theorem member_key_is_case_insensitive (self : Client) (c : Call) (k key s : string)
    (code : Z) :
  responseKey c = Some k ->
  foldName key = foldName k ->
  answered RoundTrip (invoke (F := F) RoundTrip randomBoundary self c)
    (Ok (mkResponse code (mkBody [JObject [(key, JString s)]] CleanEnd))) ->
  outcome (invoke (F := F) RoundTrip randomBoundary self c) = (OutString s, None).
Proof.
  intros Hk Hfold Hans. rewrite (answered_outcome _ _ _ Hans). cbn [RespBody].
  destruct (decodeFor_object c k [(key, JString s)] Hk)
    as (T & mk & get & name & Hget & ->).
  cbn [decodeObject]. rewrite findField_single. cbn [fieldName].
  rewrite Hfold, String.eqb_refl. cbn [store storeString saveError].
  rewrite Hget. apply settle_no_error.
Qed.

(** X9. The body [null] decodes without error and stores nothing: the
    method returns the empty string, or a pointer to a zero struct, and
    a nil error. *)
Theorem null_body_gives_untouched_output (self : Client) (c : Call) (code : Z) :
  answered RoundTrip (invoke (F := F) RoundTrip randomBoundary self c)
    (Ok (mkResponse code (mkBody [JNull] CleanEnd))) ->
  outcome (invoke (F := F) RoundTrip randomBoundary self c)
    = (untouchedOutput c, None).
Proof.
  intros Hans. rewrite (answered_outcome _ _ _ Hans). cbn [RespBody].
  destruct c; reflexivity.
Qed.

(** X10. An empty body is a decode error and gives a zero output: the
    error is [io.EOF] for the methods that use a [Decoder], a syntax
    error for the second [Describe], which unmarshals the bytes it
    read. *)
Theorem empty_body_is_an_error (self : Client) (c : Call) (code : Z) :
  answered RoundTrip (invoke (F := F) RoundTrip randomBoundary self c)
    (Ok (mkResponse code (mkBody [] CleanEnd))) ->
  outcome (invoke (F := F) RoundTrip randomBoundary self c)
    = (zeroOutput c,
       Some (if usesDecoder c then EOF
             else SyntaxError "unexpected end of JSON input")).
Proof.
  intros Hans. rewrite (answered_outcome _ _ _ Hans). cbn [RespBody].
  destruct c; reflexivity.
Qed.

End DecodeFacts.

Lemma missing_member_is_not_an_error_witness :
  responseKey (CallUpscale "T1" 2 []) = Some "imageURL" /\
  Forall (fun m => foldName (fst m) <> foldName "imageURL")
    [("error", JString "unauthorized")] /\
  answered (always (Ok (mkResponse 401
                          (mkBody [JObject [("error", JString "unauthorized")]] CleanEnd))))
    (invoke (H := literalFloat64)
       (always (Ok (mkResponse 401
                      (mkBody [JObject [("error", JString "unauthorized")]] CleanEnd))))
       "boundary" (NewClient "key") (CallUpscale "T1" 2 []))
    (Ok (mkResponse 401
           (mkBody [JObject [("error", JString "unauthorized")]] CleanEnd))) /\
  outcome (invoke (H := literalFloat64)
             (always (Ok (mkResponse 401
                            (mkBody [JObject [("error", JString "unauthorized")]] CleanEnd))))
             "boundary" (NewClient "key") (CallUpscale "T1" 2 []))
    = (OutString "", None).
Proof.
  assert (Hms : Forall (fun m => foldName (fst m) <> foldName "imageURL")
                  [("error", JString "unauthorized")]).
  { repeat constructor. cbn. discriminate. }
  assert (Hans : answered
            (always (Ok (mkResponse 401
                           (mkBody [JObject [("error", JString "unauthorized")]] CleanEnd))))
            (invoke (H := literalFloat64)
               (always (Ok (mkResponse 401
                              (mkBody [JObject [("error", JString "unauthorized")]] CleanEnd))))
               "boundary" (NewClient "key") (CallUpscale "T1" 2 []))
            (Ok (mkResponse 401
                   (mkBody [JObject [("error", JString "unauthorized")]] CleanEnd)))).
  { eexists. split; [left; reflexivity | reflexivity]. }
  split; [reflexivity |]. split; [exact Hms |]. split; [exact Hans |].
  exact (missing_member_is_not_an_error (H := literalFloat64) _ _ _
           (CallUpscale "T1" 2 []) "imageURL" _ _ eq_refl Hms Hans).
Defined.

Lemma member_key_is_case_insensitive_witness :
  responseKey (CallSeed "T1" []) = Some "TaskId" /\
  foldName "taskid" = foldName "TaskId" /\
  answered (always (Ok (mkResponse 200
                          (mkBody [JObject [("taskid", JString "T2")]] CleanEnd))))
    (invoke (H := literalFloat64)
       (always (Ok (mkResponse 200
                      (mkBody [JObject [("taskid", JString "T2")]] CleanEnd))))
       "boundary" (NewClient "key") (CallSeed "T1" []))
    (Ok (mkResponse 200 (mkBody [JObject [("taskid", JString "T2")]] CleanEnd))) /\
  outcome (invoke (H := literalFloat64)
             (always (Ok (mkResponse 200
                            (mkBody [JObject [("taskid", JString "T2")]] CleanEnd))))
             "boundary" (NewClient "key") (CallSeed "T1" []))
    = (OutString "T2", None).
Proof.
  assert (Hans : answered
            (always (Ok (mkResponse 200
                           (mkBody [JObject [("taskid", JString "T2")]] CleanEnd))))
            (invoke (H := literalFloat64)
               (always (Ok (mkResponse 200
                              (mkBody [JObject [("taskid", JString "T2")]] CleanEnd))))
               "boundary" (NewClient "key") (CallSeed "T1" []))
            (Ok (mkResponse 200
                   (mkBody [JObject [("taskid", JString "T2")]] CleanEnd)))).
  { eexists. split; [left; reflexivity | reflexivity]. }
  split; [reflexivity |]. split; [reflexivity |]. split; [exact Hans |].
  exact (member_key_is_case_insensitive (H := literalFloat64) _ _ _
           (CallSeed "T1" []) "TaskId" "taskid" "T2" _ eq_refl eq_refl Hans).
Defined.

Lemma null_body_gives_untouched_output_witness :
  answered (always (Ok (mkResponse 200 (mkBody [JNull] CleanEnd))))
    (invoke (H := literalFloat64)
       (always (Ok (mkResponse 200 (mkBody [JNull] CleanEnd))))
       "boundary" (NewClient "key") (CallImagineResult "T1" [1]))
    (Ok (mkResponse 200 (mkBody [JNull] CleanEnd))) /\
  outcome (invoke (H := literalFloat64)
             (always (Ok (mkResponse 200 (mkBody [JNull] CleanEnd))))
             "boundary" (NewClient "key") (CallImagineResult "T1" [1]))
    = (OutImagineResult
         (Some (ImagineResultResponse.mk (ResultResponse.mk "" "0") "")), None).
Proof.
  assert (Hans : answered (always (Ok (mkResponse 200 (mkBody [JNull] CleanEnd))))
            (invoke (H := literalFloat64)
               (always (Ok (mkResponse 200 (mkBody [JNull] CleanEnd))))
               "boundary" (NewClient "key") (CallImagineResult "T1" [1]))
            (Ok (mkResponse 200 (mkBody [JNull] CleanEnd)))).
  { eexists. split; [left; reflexivity | reflexivity]. }
  split; [exact Hans |].
  exact (null_body_gives_untouched_output (H := literalFloat64) _ _ _
           (CallImagineResult "T1" [1]) _ Hans).
Defined.

Lemma empty_body_is_an_error_witness :
  answered (always (Ok (mkResponse 204 (mkBody [] CleanEnd))))
    (invoke (H := literalFloat64)
       (always (Ok (mkResponse 204 (mkBody [] CleanEnd))))
       "boundary" (NewClient "key") (CallFaceswap "https://x/a.png" "https://x/b.png"))
    (Ok (mkResponse 204 (mkBody [] CleanEnd))) /\
  outcome (invoke (H := literalFloat64)
             (always (Ok (mkResponse 204 (mkBody [] CleanEnd))))
             "boundary" (NewClient "key")
             (CallFaceswap "https://x/a.png" "https://x/b.png"))
    = (OutString "", Some EOF).
Proof.
  assert (Hans : answered (always (Ok (mkResponse 204 (mkBody [] CleanEnd))))
            (invoke (H := literalFloat64)
               (always (Ok (mkResponse 204 (mkBody [] CleanEnd))))
               "boundary" (NewClient "key")
               (CallFaceswap "https://x/a.png" "https://x/b.png"))
            (Ok (mkResponse 204 (mkBody [] CleanEnd)))).
  { eexists. split; [left; reflexivity | reflexivity]. }
  split; [exact Hans |].
  exact (empty_body_is_an_error (H := literalFloat64) _ _ _
           (CallFaceswap "https://x/a.png" "https://x/b.png") _ Hans).
Defined.


(** ** The result structs *)

Section ResultFacts.
Context {F : Type} `{Float64 F}.

(** X12. [ImagineResult] fills its struct from the members [status],
    [percentage] (through [ParseFloat]) and [image_url]; the fields of
    the embedded [ResultResponse] are read from the top level of the
    object.  The key [imageURL], which [Upscale] and [Faceswap] read,
    is not a key of this struct: with it the image URL stays empty. *)
Theorem ImagineResult_fields (self : Client) (taskId : string) (position : list Z)
    (code : Z) (status lit url : string) (percentage : F) :
  ParseFloat lit = Some percentage ->
  outcome (ImagineResult
             (always (Ok (mkResponse code
                            (mkBody [JObject [("status", JString status);
                                              ("percentage", JNumber lit);
                                              ("image_url", JString url)]] CleanEnd))))
             self taskId position)
    = (Some (ImagineResultResponse.mk (ResultResponse.mk status percentage) url), None)
  /\
  outcome (ImagineResult
             (always (Ok (mkResponse code
                            (mkBody [JObject [("status", JString status);
                                              ("percentage", JNumber lit);
                                              ("imageURL", JString url)]] CleanEnd))))
             self taskId position)
    = (Some (ImagineResultResponse.mk (ResultResponse.mk status percentage) ""), None).
Proof.
  intros Hparse.
  split; unfold outcome, run, ImagineResult, bind;
    rewrite getArrayFirstOrEmpty_hd;
    rewrite (postJson_from _ _ _ _ _ _ (Encode_ResultRequest _ _));
    unfold always; cbn [fst RespBody];
    unfold Decode, unmarshal; cbn; rewrite Hparse; reflexivity.
Qed.

(** Decoding an array of strings into the cells of a slice, from its
    end on, appends the strings. *)
Lemma decodeElems_strings (name : string) (l cells : list string)
    (saved : option error) :
  decodeElems name (map JString l) (length cells) cells saved
    = ((cells ++ l)%list, saved).
Proof.
  revert cells saved. induction l as [| s l IH]; intros cells saved.
  - cbn. rewrite app_nil_r. reflexivity.
  - cbn [map decodeElems storeString].
    rewrite (proj2 (Nat.ltb_ge _ _) (le_n _)).
    replace (S (length cells)) with (length (cells ++ [s])%list)
      by (rewrite length_app; cbn; lia).
    rewrite IH. destruct saved; cbn [saveError]; rewrite <- app_assoc; reflexivity.
Qed.

(** X13. [DescribeResult] returns the strings of the member [content],
    in their order, as the elements of [Content]; the other fields keep
    their zero values. *)
Theorem DescribeResult_content (self : Client) (taskId : string) (code : Z)
    (descriptions : list string) :
  exists r : DescribeResultResponse.t F,
    outcome (DescribeResult
               (always (Ok (mkResponse code
                              (mkBody [JObject
                                         [("content",
                                           JArray (map JString descriptions))]]
                                      CleanEnd))))
               self taskId)
      = (Some r, None) /\
    elements_of (DescribeResultResponse.Content r) = descriptions /\
    DescribeResultResponse.ResultResponse r = zero.
Proof.
  unfold outcome, run, DescribeResult, bind.
  erewrite postJson_from by reflexivity.
  unfold always; cbn [fst RespBody].
  unfold Decode, unmarshal; cbn [Docs decodeObject].
  change (findField (fieldsOf (DescribeResultResponse.t F)) "content")
    with (Some (mkFieldSpec "content"
                  (storeStrings (T := DescribeResultResponse.t F)
                     "DescribeResultResponse.content"
                     DescribeResultResponse.Content
                     (fun c r => DescribeResultResponse.mk
                                   (DescribeResultResponse.ResultResponse r) c)))).
  cbn [store storeStrings].
  change (DescribeResultResponse.Content zero) with (@None slice).
  cbv beta iota.
  pose proof (decodeElems_strings "DescribeResultResponse.content"
                descriptions [] None) as Hdec.
  cbn [length app] in Hdec. rewrite Hdec.
  destruct descriptions as [| d ds].
  - eexists. split; [reflexivity |]. split; reflexivity.
  - eexists. split; [reflexivity |]. split; [| reflexivity].
    cbn [DescribeResultResponse.Content elements_of len array].
    rewrite length_map. apply firstn_all.
Qed.
End ResultFacts.

Lemma ImagineResult_fields_witness :
  ParseFloat (Float64 := literalFloat64) "42.5" = Some "42.5" /\
  outcome (ImagineResult (H := literalFloat64)
             (always (Ok (mkResponse 200
                            (mkBody [JObject [("status", JString "running");
                                              ("percentage", JNumber "42.5");
                                              ("image_url", JString "https://x/i.png")]]
                                    CleanEnd))))
             (NewClient "key") "T1" [])
    = (Some (ImagineResultResponse.mk (ResultResponse.mk "running" "42.5")
               "https://x/i.png"), None).
Proof.
  split; [reflexivity |].
  exact (proj1 (ImagineResult_fields (H := literalFloat64) (NewClient "key") "T1" []
                  200 "running" "42.5" "https://x/i.png" "42.5" eq_refl)).
Defined.

(** ** Helpers of the body encoders *)

Lemma ascii_of_code (c : ascii) (n : nat) :
  (nat_of_ascii c =? n)%nat = true -> c = ascii_of_nat n.
Proof.
  intros Hc. apply Nat.eqb_eq in Hc. rewrite <- Hc.
  symmetry. apply ascii_nat_embedding.
Qed.

Lemma unescape_backslash (x : string) :
  unescapeQuotes (backslash +:+ backslash +:+ x)
    = String (ascii_of_nat 92) (unescapeQuotes x).
Proof. reflexivity. Qed.

Lemma unescape_quote (x : string) :
  unescapeQuotes (backslash +:+ dquote +:+ x)
    = String (ascii_of_nat 34) (unescapeQuotes x).
Proof. reflexivity. Qed.

(** X14. [escapeQuotes] loses nothing: reading an escaped string with
    a backslash taken as "the next byte is literal" gives the string
    back, so two different names never get the same escaped form. *)
Theorem escapeQuotes_round_trip (s : string) :
  unescapeQuotes (escapeQuotes s) = s /\
  (forall t : string, escapeQuotes s = escapeQuotes t -> s = t).
Proof.
  assert (Hrt : forall u : string, unescapeQuotes (escapeQuotes u) = u).
  { induction u as [| c u IH]; [reflexivity |].
    cbn [escapeQuotes].
    destruct (nat_of_ascii c =? 92)%nat eqn:Hb.
    - apply ascii_of_code in Hb. subst c.
      rewrite unescape_backslash, IH. reflexivity.
    - destruct (nat_of_ascii c =? 34)%nat eqn:Hq.
      + apply ascii_of_code in Hq. subst c.
        rewrite unescape_quote, IH. reflexivity.
      + cbn [unescapeQuotes]. rewrite Hb, IH. reflexivity. }
  split; [apply Hrt |].
  intros t Heq. rewrite <- (Hrt s), <- (Hrt t), Heq. reflexivity.
Qed.

(** X15. The member [position] of the [Upscale] body is always there,
    also for the position 0, and its literal is the decimal form of the
    position: it reads back as the same integer. *)
Theorem Upscale_position_literal (RoundTrip : Request -> result Response)
    (self : Client) (taskId : string) (position : Z) (callbackURL : list string) :
  exists (lit : string) (others : list (string * json)),
    sent (Upscale RoundTrip self taskId position callbackURL)
      = [jsonRequest self "/upscale"
           (JObject (("taskId", JString taskId)
                     :: ("position", JNumber lit) :: others))] /\
    option_map Z.of_int (NilZero.int_of_string lit) = Some position.
Proof.
  exists (FormatInt position), (optionalString "callback_url" (hd "" callbackURL)).
  split.
  - unfold sent, run, Upscale, bind. rewrite getArrayFirstOrEmpty_hd.
    rewrite (postJson_from _ _ _ _ _ _ (Encode_UpscaleRequest _ _ _)).
    destruct (RoundTrip _) as [res | e]; [| reflexivity].
    destruct (Decode (RespBody res) _) as [r [e |]]; reflexivity.
  - unfold FormatInt. rewrite NilZero.isi.
    + cbn [option_map]. rewrite DecimalZ.of_to. reflexivity.
    + destruct position as [| p | p]; cbn; try discriminate.
      intros Hp. injection Hp as Hp. exact (DecimalPos.Unsigned.to_uint_nonnil p Hp).
    + destruct position as [| p | p]; cbn; try discriminate.
      intros Hp. injection Hp as Hp. exact (DecimalPos.Unsigned.to_uint_nonnil p Hp).
Qed.

(** ** The credential *)

(** X16. The credential goes into the [Authorization] header and
    nowhere else: two clients with different credentials send requests
    with the same method, URL and body. *)
Theorem credential_only_in_header {F : Type} `{Float64 F}
    (RoundTrip : Request -> result Response) (randomBoundary key1 key2 : string)
    (c : Call) :
  map (fun req => (Method req, URL req, ReqBody req))
      (sent (invoke (F := F) RoundTrip randomBoundary (NewClient key1) c))
  = map (fun req => (Method req, URL req, ReqBody req))
        (sent (invoke (F := F) RoundTrip randomBoundary (NewClient key2) c)).
Proof.
  destruct c as [| | [data [e |]] cb | [data [e |]] cb | | | | |];
    sent_of_call; cbn [map]; unfold jsonRequest, describeRequest;
    cbn [Method URL ReqBody]; reflexivity.
Qed.
